(** * RuuviTag BLE sensor platform: [homeassistant/components/ruuvitag_ble/sensor.py]

    A shallow embedding of the module's static table and conversion
    functions, and the properties its specification states about them.

    Python dictionaries are finite maps ([gmap]); iterating a dictionary
    ([dict.items()]) enumerates its items in some order, and a dictionary
    comprehension is a loop over that enumeration which stores one item per
    iteration.  A failing [assert] raises [AssertionError], which aborts the
    whole call: fallible code lives in the [result] monad below.  Assertions
    are taken as enabled (the interpreter's default mode). *)

From Stdlib Require Import ZArith Floats.SpecFloat.
From stdpp Require Import base option list strings countable gmap fin_maps.

Set Default Proof Using "Type".
Open Scope string_scope.

(** ** Exceptions *)

Inductive exception : Type :=
  | AssertionError
  | KeyError.

Inductive result (A : Type) : Type :=
  | Ok (a : A)
  | Raise (e : exception).
Arguments Ok {A} a.
Arguments Raise {A} e.

Definition result_bind {A B} (f : A → result B) (r : result A) : result B :=
  match r with
  | Ok a => f a
  | Raise e => Raise e
  end.

#[global] Instance result_ret : MRet result := λ A, @Ok A.
#[global] Instance result_mbind : MBind result := λ A B, @result_bind A B.

(** ** The decoding library's data ([sensor_state_data]) *)

(** Modelled from the spec: [SensorDeviceClass] and [Units], the device
    classes and units that classify a physical measurement, are string
    enumerations declared in the decoding library, not in this module.  The
    members this module names are constructors of their own, any other member
    is [other] with its string value, and [value] is a member's string value,
    which is what an f-string prints for it. *)
Module SensorDeviceClass.
Inductive t : Type :=
  | TEMPERATURE
  | HUMIDITY
  | PRESSURE
  | VOLTAGE
  | SIGNAL_STRENGTH
  | COUNT
  | other (v : string).

Definition value (c : t) : string :=
  match c with
  | TEMPERATURE => "temperature"
  | HUMIDITY => "humidity"
  | PRESSURE => "pressure"
  | VOLTAGE => "voltage"
  | SIGNAL_STRENGTH => "signal_strength"
  | COUNT => "count"
  | other v => v
  end.

Definition to_sum (c : t) : nat + string :=
  match c with
  | TEMPERATURE => inl 0
  | HUMIDITY => inl 1
  | PRESSURE => inl 2
  | VOLTAGE => inl 3
  | SIGNAL_STRENGTH => inl 4
  | COUNT => inl 5
  | other v => inr v
  end.

Definition of_sum (s : nat + string) : t :=
  match s with
  | inl 0 => TEMPERATURE
  | inl 1 => HUMIDITY
  | inl 2 => PRESSURE
  | inl 3 => VOLTAGE
  | inl 4 => SIGNAL_STRENGTH
  | inl _ => COUNT
  | inr v => other v
  end.

#[global] Instance device_class_eq_dec : EqDecision t.
Proof. solve_decision. Defined.

#[global] Instance device_class_countable : Countable t.
Proof. apply (inj_countable' to_sum of_sum). by intros []. Defined.
End SensorDeviceClass.

Module Units.
Inductive t : Type :=
  | TEMP_CELSIUS
  | PERCENTAGE
  | PRESSURE_HPA
  | ELECTRIC_POTENTIAL_MILLIVOLT
  | SIGNAL_STRENGTH_DECIBELS_MILLIWATT
  | other (v : string).

Definition value (u : t) : string :=
  match u with
  | TEMP_CELSIUS => "°C"
  | PERCENTAGE => "%"
  | PRESSURE_HPA => "hPa"
  | ELECTRIC_POTENTIAL_MILLIVOLT => "mV"
  | SIGNAL_STRENGTH_DECIBELS_MILLIWATT => "dBm"
  | other v => v
  end.

Definition to_sum (u : t) : nat + string :=
  match u with
  | TEMP_CELSIUS => inl 0
  | PERCENTAGE => inl 1
  | PRESSURE_HPA => inl 2
  | ELECTRIC_POTENTIAL_MILLIVOLT => inl 3
  | SIGNAL_STRENGTH_DECIBELS_MILLIWATT => inl 4
  | other v => inr v
  end.

Definition of_sum (s : nat + string) : t :=
  match s with
  | inl 0 => TEMP_CELSIUS
  | inl 1 => PERCENTAGE
  | inl 2 => PRESSURE_HPA
  | inl 3 => ELECTRIC_POTENTIAL_MILLIVOLT
  | inl _ => SIGNAL_STRENGTH_DECIBELS_MILLIWATT
  | inr v => other v
  end.

#[global] Instance units_eq_dec : EqDecision t.
Proof. solve_decision. Defined.

#[global] Instance units_countable : Countable t.
Proof. apply (inj_countable' to_sum of_sum). by intros []. Defined.
End Units.

(** Modelled from the spec: [DeviceKey], the decoding library's frozen
    dataclass of a physical key and a device id, [key: str] and
    [device_id: str | None]; this module reads both fields. *)
Module DeviceKey.
Record t : Type := mk { key : string; device_id : option string }.

#[global] Instance device_key_eq_dec : EqDecision t.
Proof. solve_decision. Defined.

#[global] Instance device_key_countable : Countable t.
Proof.
  apply (inj_countable' (λ k, (key k, device_id k)) (λ p, mk p.1 p.2)).
  by intros [].
Defined.
End DeviceKey.

(** Modelled from the spec: [SensorDescription], the (device class, unit)
    pair identifying a measurement kind, sourced from the decoding library.
    The device class is optional there, which is what the assertion of
    [_to_sensor_key] is about. *)
Module SensorDescription.
Record t : Type := mk {
  device_key : DeviceKey.t;
  device_class : option SensorDeviceClass.t;
  native_unit_of_measurement : option Units.t;
}.
End SensorDescription.

(** A Python number, [int | float], a float being an IEEE 754 value; the
    module only carries numbers along. *)
Inductive number : Type :=
| Int (z : Z)
| Float (f : spec_float).

(** Modelled from the spec: [SensorValue], one entity value of the decoding
    library's snapshot; this module reads its [name] and [native_value]. *)
Module SensorValue.
Record t : Type := mk {
  device_key : DeviceKey.t;
  name : option string;
  native_value : option number;
}.
End SensorValue.

(** ** The platform's data ([homeassistant]) *)

(** Modelled from the spec: the unit strings of [homeassistant.const],
    declared outside this module; each is the string of the like-named member
    of [Units]. *)
Module const.
Definition TEMP_CELSIUS : string := "°C".
Definition PERCENTAGE : string := "%".
Definition PRESSURE_HPA : string := "hPa".
Definition ELECTRIC_POTENTIAL_MILLIVOLT : string := "mV".
Definition SIGNAL_STRENGTH_DECIBELS_MILLIWATT : string := "dBm".
End const.

(** Modelled from the spec: the state class of the platform's metadata. *)
Module SensorStateClass.
Inductive t : Type :=
  | MEASUREMENT
  | TOTAL
  | TOTAL_INCREASING.

#[global] Instance state_class_eq_dec : EqDecision t.
Proof. solve_decision. Defined.
End SensorStateClass.

(** Modelled from the spec: [SensorEntityDescription], the static platform
    metadata (key, device class, unit, state class, default-enabled flag),
    declared outside this module.  A field the constructor call leaves out
    takes the dataclass's default: [native_unit_of_measurement = None],
    [entity_registry_enabled_default = True]. *)
Module SensorEntityDescription.
Record t : Type := mk {
  key : string;
  device_class : option SensorDeviceClass.t;
  native_unit_of_measurement : option string;
  state_class : option SensorStateClass.t;
  entity_registry_enabled_default : bool;
}.

#[global] Instance entity_description_eq_dec : EqDecision t.
Proof. solve_decision. Defined.
End SensorEntityDescription.

(** Modelled from the spec: [PassiveBluetoothEntityKey], the platform's
    entity key, a frozen dataclass declared outside this module whose
    positional fields are [key: str] and [device_id: str | None]. *)
Module PassiveBluetoothEntityKey.
Record t : Type := mk { key : string; device_id : option string }.

#[global] Instance entity_key_eq_dec : EqDecision t.
Proof. solve_decision. Defined.

#[global] Instance entity_key_countable : Countable t.
Proof.
  apply (inj_countable' (λ k, (key k, device_id k)) (λ p, mk p.1 p.2)).
  by intros [].
Defined.
End PassiveBluetoothEntityKey.

(** Modelled from the spec: [SensorUpdate], the decoding library's snapshot
    of device info, entity descriptions and entity values for one
    advertisement observation; these are the fields this module reads.  The
    device-info payload is the library's own. *)
Module SensorUpdate.
Record t (SensorDeviceInfo : Type) : Type := mk {
  devices : gmap (option string) SensorDeviceInfo;
  entity_descriptions : gmap DeviceKey.t SensorDescription.t;
  entity_values : gmap DeviceKey.t SensorValue.t;
}.
Arguments mk {_} _ _ _.
Arguments devices {_} _.
Arguments entity_descriptions {_} _.
Arguments entity_values {_} _.
End SensorUpdate.

(** Modelled from the spec: [PassiveBluetoothDataUpdate], the platform
    update made of device info, entity descriptions, entity values and entity
    names, declared outside this module; here at the value type
    [Optional[Union[float, int]]] the processor is instantiated with. *)
Module PassiveBluetoothDataUpdate.
Record t (DeviceInfo : Type) : Type := mk {
  devices : gmap (option string) DeviceInfo;
  entity_descriptions : gmap PassiveBluetoothEntityKey.t SensorEntityDescription.t;
  entity_data : gmap PassiveBluetoothEntityKey.t (option number);
  entity_names : gmap PassiveBluetoothEntityKey.t (option string);
}.
Arguments mk {_} _ _ _ _.
Arguments devices {_} _.
Arguments entity_descriptions {_} _.
Arguments entity_data {_} _.
Arguments entity_names {_} _.
End PassiveBluetoothDataUpdate.

(** ** Dictionaries *)

(** [d[k] = v]. *)
Definition dict_setitem `{Countable K} {V} (d : gmap K V) (kv : K * V) : gmap K V :=
  <[kv.1 := kv.2]> d.

(** A dictionary display [{k1: v1, ..., kn: vn}]: the items are stored from
    left to right. *)
Definition dict_display `{Countable K} {V} (items : list (K * V)) : gmap K V :=
  foldl dict_setitem ∅ items.

(** [d[k]], which raises [KeyError] on a missing key. *)
Definition dict_getitem `{Countable K} {V} (d : gmap K V) (k : K) : result V :=
  match d !! k with
  | Some v => Ok v
  | None => Raise KeyError
  end.

(** [k in d]. *)
Definition dict_contains `{Countable K} {V} (d : gmap K V) (k : K) : bool :=
  bool_decide (is_Some (d !! k)).

(** [d.get(k)] at a value type that includes [None]. *)
Definition dict_get `{Countable K} {V} (d : gmap K (option V)) (k : K) : option V :=
  match d !! k with
  | Some v => v
  | None => None
  end.

(** [d.items()]. *)
Definition dict_items `{Countable K} {V} (d : gmap K V) : list (K * V) :=
  map_to_list d.

(** A dictionary comprehension [{key: value for k, v in items if cond}].
    [body k v] runs one iteration: it raises, or skips the item ([None]), or
    gives the item to store. *)
Fixpoint dict_comprehension `{Countable K'} {K V V'}
    (body : K → V → result (option (K' * V')))
    (items : list (K * V)) (acc : gmap K' V') : result (gmap K' V') :=
  match items with
  | [] => Ok acc
  | (k, v) :: items =>
      r ← body k v;
      dict_comprehension body items (from_option (dict_setitem acc) acc r)
  end.

(** An enumeration of a dictionary: each item once, in some order. *)
Definition enumerates `{Countable K} {V} (items : list (K * V)) (d : gmap K V) : Prop :=
  NoDup items.*1 ∧ ∀ k v, (k, v) ∈ items ↔ d !! k = Some v.

(** The items stored by a comprehension whose iterations do not raise. *)
Definition stored {K V K' V'} (pure : K → V → option (K' * V')) (items : list (K * V))
  : list (K' * V') :=
  omap (λ kv, pure kv.1 kv.2) items.

(** ** The module *)

(** The f-string [f"{a}_{b}"], over the strings printed for [a] and [b]. *)
Definition fstring_underscore (a b : string) : string := a +:+ "_" +:+ b.

(** The items of the [SENSOR_DESCRIPTIONS] display, as written. *)
Definition SENSOR_DESCRIPTIONS_items
  : list ((SensorDeviceClass.t * option Units.t) * SensorEntityDescription.t) :=
  [
    ((SensorDeviceClass.TEMPERATURE, Some Units.TEMP_CELSIUS),
     SensorEntityDescription.mk
       (fstring_underscore (SensorDeviceClass.value SensorDeviceClass.TEMPERATURE)
                           (Units.value Units.TEMP_CELSIUS))
       (Some SensorDeviceClass.TEMPERATURE)
       (Some const.TEMP_CELSIUS)
       (Some SensorStateClass.MEASUREMENT)
       true);
    ((SensorDeviceClass.HUMIDITY, Some Units.PERCENTAGE),
     SensorEntityDescription.mk
       (fstring_underscore (SensorDeviceClass.value SensorDeviceClass.HUMIDITY)
                           (Units.value Units.PERCENTAGE))
       (Some SensorDeviceClass.HUMIDITY)
       (Some const.PERCENTAGE)
       (Some SensorStateClass.MEASUREMENT)
       true);
    ((SensorDeviceClass.PRESSURE, Some Units.PRESSURE_HPA),
     SensorEntityDescription.mk
       (fstring_underscore (SensorDeviceClass.value SensorDeviceClass.PRESSURE)
                           (Units.value Units.PRESSURE_HPA))
       (Some SensorDeviceClass.PRESSURE)
       (Some const.PRESSURE_HPA)
       (Some SensorStateClass.MEASUREMENT)
       true);
    ((SensorDeviceClass.VOLTAGE, Some Units.ELECTRIC_POTENTIAL_MILLIVOLT),
     SensorEntityDescription.mk
       (fstring_underscore (SensorDeviceClass.value SensorDeviceClass.VOLTAGE)
                           (Units.value Units.ELECTRIC_POTENTIAL_MILLIVOLT))
       (Some SensorDeviceClass.VOLTAGE)
       (Some const.ELECTRIC_POTENTIAL_MILLIVOLT)
       (Some SensorStateClass.MEASUREMENT)
       true);
    ((SensorDeviceClass.SIGNAL_STRENGTH, Some Units.SIGNAL_STRENGTH_DECIBELS_MILLIWATT),
     SensorEntityDescription.mk
       (fstring_underscore (SensorDeviceClass.value SensorDeviceClass.SIGNAL_STRENGTH)
                           (Units.value Units.SIGNAL_STRENGTH_DECIBELS_MILLIWATT))
       (Some SensorDeviceClass.SIGNAL_STRENGTH)
       (Some const.SIGNAL_STRENGTH_DECIBELS_MILLIWATT)
       (Some SensorStateClass.MEASUREMENT)
       false);
    ((SensorDeviceClass.COUNT, None),
     SensorEntityDescription.mk
       "movement_counter"
       (Some SensorDeviceClass.COUNT)
       None
       (Some SensorStateClass.MEASUREMENT)
       false)
  ].

Definition SENSOR_DESCRIPTIONS
  : gmap (SensorDeviceClass.t * option Units.t) SensorEntityDescription.t :=
  dict_display SENSOR_DESCRIPTIONS_items.

Definition _device_key_to_bluetooth_entity_key (device_key : DeviceKey.t)
  : PassiveBluetoothEntityKey.t :=
  PassiveBluetoothEntityKey.mk (DeviceKey.key device_key) (DeviceKey.device_id device_key).

Definition _to_sensor_key (description : SensorDescription.t)
  : result (SensorDeviceClass.t * option Units.t) :=
  match SensorDescription.device_class description with
  | None => Raise AssertionError
  | Some device_class =>
      Ok (device_class, SensorDescription.native_unit_of_measurement description)
  end.

(** One iteration of the [entity_descriptions] comprehension: the [if] clause
    runs first, then the key and the value expressions. *)
Definition entity_descriptions_body (device_key : DeviceKey.t)
    (description : SensorDescription.t)
  : result (option (PassiveBluetoothEntityKey.t * SensorEntityDescription.t)) :=
  cond ← (sensor_key ← _to_sensor_key description;
          mret (dict_contains SENSOR_DESCRIPTIONS sensor_key));
  if (cond : bool) then
    let k := _device_key_to_bluetooth_entity_key device_key in
    v ← (sensor_key ← _to_sensor_key description;
         dict_getitem SENSOR_DESCRIPTIONS sensor_key);
    mret (Some (k, v))
  else mret None.

Definition entity_data_body (device_key : DeviceKey.t) (sensor_values : SensorValue.t)
  : result (option (PassiveBluetoothEntityKey.t * option number)) :=
  mret (Some (_device_key_to_bluetooth_entity_key device_key,
              SensorValue.native_value sensor_values)).

Definition entity_names_body (device_key : DeviceKey.t) (sensor_values : SensorValue.t)
  : result (option (PassiveBluetoothEntityKey.t * option string)) :=
  mret (Some (_device_key_to_bluetooth_entity_key device_key,
              SensorValue.name sensor_values)).

(** The table entry of a description's measurement kind, if it has one. *)
Definition description_for (description : SensorDescription.t)
  : option SensorEntityDescription.t :=
  device_class ← SensorDescription.device_class description;
  SENSOR_DESCRIPTIONS !!
    (device_class, SensorDescription.native_unit_of_measurement description).

(** What a table entry says about the pair it is stored under: the pair's
    device class, the string of the pair's unit, and a key that is written
    from the pair, [f"{device_class}_{unit}"], where the pair has a unit; the
    one pair without a unit is that of the count class, whose key is the
    literal ["movement_counter"]. *)
Definition entry_matches (sensor_key : SensorDeviceClass.t * option Units.t)
    (description : SensorEntityDescription.t) : Prop :=
  SensorEntityDescription.device_class description = Some sensor_key.1 ∧
  SensorEntityDescription.native_unit_of_measurement description =
    Units.value <$> sensor_key.2 ∧
  match sensor_key.2 with
  | Some unit =>
      SensorEntityDescription.key description =
        fstring_underscore (SensorDeviceClass.value sensor_key.1) (Units.value unit)
  | None =>
      sensor_key.1 = SensorDeviceClass.COUNT ∧
      SensorEntityDescription.key description = "movement_counter"
  end.

Section converter.

(** The decoding library's device-info payload, the platform's device info,
    and the platform adapter between them ([homeassistant.helpers.sensor]),
    all three declared outside this module: the adapter is a parameter, a
    function that returns for every payload. *)
Context {SensorDeviceInfo DeviceInfo : Type}.
Variable sensor_device_info_to_hass_device_info : SensorDeviceInfo → DeviceInfo.

Definition devices_body (device_id : option string) (device_info : SensorDeviceInfo)
  : result (option (option string * DeviceInfo)) :=
  mret (Some (device_id, sensor_device_info_to_hass_device_info device_info)).

(** The converter's body, over the three [items()] enumerations it walks.
    The four arguments of the constructor call are evaluated in order. *)
Definition bluetooth_data_update_of_items
    (devices_items : list (option string * SensorDeviceInfo))
    (entity_descriptions_items : list (DeviceKey.t * SensorDescription.t))
    (entity_values_items : list (DeviceKey.t * SensorValue.t))
  : result (PassiveBluetoothDataUpdate.t DeviceInfo) :=
  devices ← dict_comprehension devices_body devices_items ∅;
  entity_descriptions ←
    dict_comprehension entity_descriptions_body entity_descriptions_items ∅;
  entity_data ← dict_comprehension entity_data_body entity_values_items ∅;
  entity_names ← dict_comprehension entity_names_body entity_values_items ∅;
  mret (PassiveBluetoothDataUpdate.mk devices entity_descriptions entity_data entity_names).

Definition sensor_update_to_bluetooth_data_update
    (sensor_update : SensorUpdate.t SensorDeviceInfo)
  : result (PassiveBluetoothDataUpdate.t DeviceInfo) :=
  bluetooth_data_update_of_items
    (dict_items (SensorUpdate.devices sensor_update))
    (dict_items (SensorUpdate.entity_descriptions sensor_update))
    (dict_items (SensorUpdate.entity_values sensor_update)).

(** Every description of the update carries a device class. *)
Definition device_classes_known (sensor_update : SensorUpdate.t SensorDeviceInfo) : Prop :=
  map_Forall (λ _ description, is_Some (SensorDescription.device_class description))
    (SensorUpdate.entity_descriptions sensor_update).

#[global] Instance device_classes_known_decision sensor_update :
  Decision (device_classes_known sensor_update).
Proof. unfold device_classes_known. apply _. Defined.

(** The update the converter builds when it returns. *)
Definition converted (sensor_update : SensorUpdate.t SensorDeviceInfo)
  : PassiveBluetoothDataUpdate.t DeviceInfo :=
  PassiveBluetoothDataUpdate.mk
    (sensor_device_info_to_hass_device_info <$> SensorUpdate.devices sensor_update)
    (kmap _device_key_to_bluetooth_entity_key
       (omap description_for (SensorUpdate.entity_descriptions sensor_update)))
    (kmap _device_key_to_bluetooth_entity_key
       (SensorValue.native_value <$> SensorUpdate.entity_values sensor_update))
    (kmap _device_key_to_bluetooth_entity_key
       (SensorValue.name <$> SensorUpdate.entity_values sensor_update)).

End converter.

(** The update without the description stored under a device key. *)
Definition without_description {SensorDeviceInfo} (device_key : DeviceKey.t)
    (sensor_update : SensorUpdate.t SensorDeviceInfo) : SensorUpdate.t SensorDeviceInfo :=
  SensorUpdate.mk
    (SensorUpdate.devices sensor_update)
    (delete device_key (SensorUpdate.entity_descriptions sensor_update))
    (SensorUpdate.entity_values sensor_update).

(** Modelled from the spec: the attributes of the platform's processor and
    entity base classes that [native_value] reads.  [processor] is the state
    of the processor the entity refers to at the time the property is read. *)
Module PassiveBluetoothDataProcessor.
Record t : Type := mk {
  entity_data : gmap PassiveBluetoothEntityKey.t (option number);
}.
End PassiveBluetoothDataProcessor.

Module RuuvitagBluetoothSensorEntity.
Record t : Type := mk {
  processor : PassiveBluetoothDataProcessor.t;
  entity_key : PassiveBluetoothEntityKey.t;
}.

Definition native_value (self : t) : option number :=
  dict_get (PassiveBluetoothDataProcessor.entity_data (processor self)) (entity_key self).
End RuuvitagBluetoothSensorEntity.

(** The update with [description] stored under [device_key] in its
    [entity_descriptions], and the one with [sensor_values] stored under
    [device_key] in its [entity_values]. *)
Definition with_description {SensorDeviceInfo} (device_key : DeviceKey.t)
    (description : SensorDescription.t)
    (sensor_update : SensorUpdate.t SensorDeviceInfo) : SensorUpdate.t SensorDeviceInfo :=
  SensorUpdate.mk
    (SensorUpdate.devices sensor_update)
    (dict_setitem (SensorUpdate.entity_descriptions sensor_update) (device_key, description))
    (SensorUpdate.entity_values sensor_update).

Definition with_value {SensorDeviceInfo} (device_key : DeviceKey.t)
    (sensor_values : SensorValue.t)
    (sensor_update : SensorUpdate.t SensorDeviceInfo) : SensorUpdate.t SensorDeviceInfo :=
  SensorUpdate.mk
    (SensorUpdate.devices sensor_update)
    (SensorUpdate.entity_descriptions sensor_update)
    (dict_setitem (SensorUpdate.entity_values sensor_update) (device_key, sensor_values)).

(** ** The module's objects *)

(** The objects the module shares by reference.  Each constructor call of the
    [SENSOR_DESCRIPTIONS] display makes an instance; [instances] holds the
    instances by identity, and [table] is the dictionary bound to
    [SENSOR_DESCRIPTIONS], from pairs to instances. *)
Module ModuleState.
Record t : Type := mk {
  instances : gmap nat SensorEntityDescription.t;
  table : gmap (SensorDeviceClass.t * option Units.t) nat;
}.
End ModuleState.








(** ** Example data *)

Module Example.
(** A device-info payload reduced to the device's name, and an adapter that
    files the name under the platform's ["name"] attribute. *)
Definition adapter (name : string) : list (string * string) := [("name", name)].

Definition temperature_key : DeviceKey.t := DeviceKey.mk "temperature" None.
Definition battery_key : DeviceKey.t := DeviceKey.mk "battery" None.

Definition temperature : SensorDescription.t :=
  SensorDescription.mk temperature_key
    (Some SensorDeviceClass.TEMPERATURE) (Some Units.TEMP_CELSIUS).
Definition battery : SensorDescription.t :=
  SensorDescription.mk battery_key
    (Some (SensorDeviceClass.other "battery")) (Some Units.PERCENTAGE).
Definition unclassified : SensorDescription.t :=
  SensorDescription.mk battery_key None (Some Units.PERCENTAGE).

Definition movement_key : DeviceKey.t := DeviceKey.mk "movement_counter" None.
Definition movement : SensorDescription.t :=
  SensorDescription.mk movement_key (Some SensorDeviceClass.COUNT) None.

Definition temperature_value : SensorValue.t :=
  SensorValue.mk temperature_key (Some "Temperature") (Some (Int 21)).
Definition battery_value : SensorValue.t :=
  SensorValue.mk battery_key (Some "Battery") (Some (Int 87)).

Definition values : gmap DeviceKey.t SensorValue.t :=
  {[ temperature_key := temperature_value; battery_key := battery_value ]}.

(** One supported reading. *)
Definition supported : SensorUpdate.t string :=
  SensorUpdate.mk {[ None := "RuuviTag 0911" ]}
    {[ temperature_key := temperature ]}
    {[ temperature_key := temperature_value ]}.

(** One reading of the count class, which has no unit. *)
Definition counted : SensorUpdate.t string :=
  SensorUpdate.mk {[ None := "RuuviTag 0911" ]}
    {[ movement_key := movement ]}
    {[ movement_key := SensorValue.mk movement_key (Some "Movement counter") (Some (Int 7)) ]}.

(** A supported reading and one of a kind the table does not have. *)
Definition mixed : SensorUpdate.t string :=
  SensorUpdate.mk {[ None := "RuuviTag 0911" ]}
    {[ temperature_key := temperature; battery_key := battery ]}
    values.

(** A supported reading and a description without a device class. *)
Definition malformed : SensorUpdate.t string :=
  SensorUpdate.mk {[ None := "RuuviTag 0911" ]}
    {[ temperature_key := temperature; battery_key := unclassified ]}
    values.
End Example.

(** * Properties *)

(** ** Dictionary comprehensions *)

Lemma dict_items_enumerates `{Countable K} {V} (d : gmap K V) :
  enumerates (dict_items d) d.
Proof.
  split; [apply NoDup_fst_map_to_list|].
  intros k v. apply elem_of_map_to_list.
Qed.

Lemma enumerates_Permutation `{Countable K} {V} (items items' : list (K * V)) d :
  enumerates items d → items ≡ₚ items' → enumerates items' d.
Proof.
  intros [Hnd Hen] Hperm. split.
  - by rewrite <-Hperm.
  - intros k v. by rewrite <-Hperm.
Qed.

Lemma enumerates_reverse `{Countable K} {V} (items : list (K * V)) d :
  enumerates items d → enumerates (reverse items) d.
Proof.
  intros Hen. apply (enumerates_Permutation items); [done|].
  symmetry. apply reverse_Permutation.
Qed.

Section comprehension.
Context `{Countable K, Countable K'} {V V' : Type}.
Implicit Types (body : K → V → result (option (K' * V'))).
Implicit Types (pure : K → V → option (K' * V')).
Implicit Types (items : list (K * V)) (acc : gmap K' V').

Lemma foldl_setitem_union (l : list (K' * V')) acc :
  NoDup l.*1 → foldl dict_setitem acc l = list_to_map l ∪ acc.
Proof.
  revert acc. induction l as [|[k v] l IH]; intros acc Hnd; simpl.
  - by rewrite (left_id_L ∅ (∪)).
  - apply NoDup_cons in Hnd as [Hk Hnd].
    rewrite IH by done. unfold dict_setitem; simpl.
    rewrite <-insert_union_l. symmetry. apply insert_union_r.
    by apply not_elem_of_list_to_map_1.
Qed.

Lemma dict_comprehension_ok body pure items acc :
  (∀ k v, (k, v) ∈ items → body k v = Ok (pure k v)) →
  dict_comprehension body items acc = Ok (foldl dict_setitem acc (stored pure items)).
Proof.
  revert acc. induction items as [|[k v] items IH]; intros acc Hbody; [done|].
  simpl. rewrite (Hbody k v) by left. simpl.
  rewrite IH by (intros; apply Hbody; by right).
  unfold stored; simpl. by destruct (pure k v).
Qed.

Lemma dict_comprehension_raise body items acc e :
  (∀ k v, (k, v) ∈ items → body k v = Raise e ∨ ∃ r, body k v = Ok r) →
  (∃ k v, (k, v) ∈ items ∧ body k v = Raise e) →
  dict_comprehension body items acc = Raise e.
Proof.
  revert acc. induction items as [|[k v] items IH]; intros acc Hbody (k0 & v0 & Hin & He).
  - by apply elem_of_nil in Hin.
  - simpl. destruct (Hbody k v) as [->|[r Hr]]; [by left|done|].
    rewrite Hr; simpl. apply IH.
    + intros; apply Hbody; by right.
    + apply elem_of_cons in Hin as [[= <- <-]|Hin]; [congruence|eauto].
Qed.

Lemma stored_keys_NoDup (f : K → K') (h : V → option V') items :
  Inj (=) (=) f → NoDup items.*1 →
  NoDup (stored (λ k v, (f k,.) <$> h v) items).*1.
Proof.
  intros Hf. induction items as [|[k v] items IH]; intros Hnd; [constructor|].
  apply NoDup_cons in Hnd as [Hk Hnd]. unfold stored; simpl.
  destruct (h v) as [v'|]; simpl; [|by apply IH].
  apply NoDup_cons; split; [|by apply IH].
  intros Hin. apply Hk.
  apply list_elem_of_fmap in Hin as ([k1 v1] & Hk1 & Hin). simpl in Hk1.
  apply list_elem_of_omap in Hin as ([k2 v2] & Hin & Hst). simpl in Hst.
  destruct (h v2); simplify_eq/=.
  apply list_elem_of_fmap. by exists (k, v2).
Qed.

(** A comprehension with an injective key expression and iterations that do
    not raise: the result holds [f k ↦ v'] exactly for the items [k ↦ v] of
    the dictionary that pass the filter with value [v']. *)
Lemma dict_comprehension_kmap body (f : K → K') (h : V → option V') items (d : gmap K V) :
  Inj (=) (=) f → enumerates items d →
  (∀ k v, d !! k = Some v → body k v = Ok ((f k,.) <$> h v)) →
  dict_comprehension body items ∅ = Ok (kmap f (omap h d)).
Proof.
  intros Hf [Hnd Hen] Hbody.
  rewrite (dict_comprehension_ok _ (λ k v, (f k,.) <$> h v))
    by (intros k v Hin; apply Hbody; by apply Hen).
  f_equal. pose proof (stored_keys_NoDup f h items Hf Hnd) as Hnd'.
  rewrite foldl_setitem_union, (right_id_L ∅ (∪)) by done.
  apply map_eq; intros k'. apply option_eq; intros v'.
  rewrite <-elem_of_list_to_map by done.
  rewrite lookup_kmap_Some by done. unfold stored.
  rewrite list_elem_of_omap. split.
  - intros ([k v] & Hin & Hst). simpl in Hst.
    destruct (h v) as [v1|] eqn:Hh; simplify_eq/=.
    exists k. split; [done|]. rewrite lookup_omap. apply Hen in Hin. by rewrite Hin.
  - intros (k & -> & Hl). rewrite lookup_omap in Hl.
    destruct (d !! k) as [v|] eqn:Hd; simplify_eq/=.
    exists (k, v). split; [by apply Hen|]. simpl. by rewrite Hl.
Qed.

End comprehension.

(** The same, for a comprehension without an [if] clause. *)
Lemma dict_comprehension_fmap `{Countable K, Countable K'} {V V'}
    (body : K → V → result (option (K' * V'))) (f : K → K') (g : V → V')
    (items : list (K * V)) (d : gmap K V) :
  Inj (=) (=) f → enumerates items d →
  (∀ k v, d !! k = Some v → body k v = Ok (Some (f k, g v))) →
  dict_comprehension body items ∅ = Ok (kmap f (g <$> d)).
Proof.
  intros Hf Hen Hbody.
  rewrite (dict_comprehension_kmap body f (λ v, Some (g v)) items d) by done.
  do 2 f_equal. apply map_eq; intros k.
  rewrite lookup_omap, lookup_fmap. by destruct (d !! k).
Qed.

Lemma kmap_id `{Countable K} {V} (d : gmap K V) : kmap (M2 := gmap K) id d = d.
Proof.
  apply map_eq; intros k. by rewrite <-(lookup_kmap (M2 := gmap K) id d k).
Qed.

Lemma map_size_kmap `{Countable K, Countable K'} {V} (f : K → K') (d : gmap K V) :
  Inj (=) (=) f → size (kmap (M2 := gmap K') f d) = size d.
Proof.
  intros Hf. induction d as [|k v d Hk _ IH] using map_first_key_ind.
  - by rewrite kmap_empty, !map_size_empty.
  - rewrite kmap_insert by done.
    rewrite !map_size_insert_None; [by rewrite IH|done|].
    by rewrite lookup_kmap.
Qed.

(** ** The table *)

Lemma SENSOR_DESCRIPTIONS_keys_NoDup : NoDup SENSOR_DESCRIPTIONS_items.*1.
Proof. apply (bool_decide_unpack _). by vm_compute. Qed.

Lemma SENSOR_DESCRIPTIONS_list_to_map :
  SENSOR_DESCRIPTIONS = list_to_map SENSOR_DESCRIPTIONS_items.
Proof.
  unfold SENSOR_DESCRIPTIONS, dict_display.
  rewrite foldl_setitem_union by apply SENSOR_DESCRIPTIONS_keys_NoDup.
  apply (right_id_L ∅ (∪)).
Qed.

Lemma SENSOR_DESCRIPTIONS_lookup sensor_key description :
  SENSOR_DESCRIPTIONS !! sensor_key = Some description ↔
  (sensor_key, description) ∈ SENSOR_DESCRIPTIONS_items.
Proof.
  rewrite SENSOR_DESCRIPTIONS_list_to_map. symmetry.
  apply elem_of_list_to_map, SENSOR_DESCRIPTIONS_keys_NoDup.
Qed.

Lemma SENSOR_DESCRIPTIONS_entries_match :
  Forall (λ item, entry_matches item.1 item.2) SENSOR_DESCRIPTIONS_items.
Proof. repeat constructor. Qed.

Lemma NoDup_fmap_elem_eq {A B} (g : A → B) (l : list A) x y :
  NoDup (g <$> l) → x ∈ l → y ∈ l → g x = g y → x = y.
Proof.
  induction l as [|a l IH]; intros Hnd Hx Hy Hg.
  - by apply elem_of_nil in Hx.
  - rewrite fmap_cons in Hnd. apply NoDup_cons in Hnd as [Ha Hnd].
    apply elem_of_cons in Hx as [->|Hx], Hy as [->|Hy]; auto.
    + destruct Ha. rewrite Hg. by apply list_elem_of_fmap_2.
    + destruct Ha. rewrite <-Hg. by apply list_elem_of_fmap_2.
Qed.

Lemma SENSOR_DESCRIPTIONS_key_inj sensor_key1 sensor_key2 description1 description2 :
  SENSOR_DESCRIPTIONS !! sensor_key1 = Some description1 →
  SENSOR_DESCRIPTIONS !! sensor_key2 = Some description2 →
  SensorEntityDescription.key description1 = SensorEntityDescription.key description2 →
  sensor_key1 = sensor_key2.
Proof.
  rewrite !SENSOR_DESCRIPTIONS_lookup. intros H1 H2 Hkey.
  assert ((sensor_key1, description1) = (sensor_key2, description2)) as [= -> _]; [|done].
  apply (NoDup_fmap_elem_eq (λ item, SensorEntityDescription.key item.2)
           SENSOR_DESCRIPTIONS_items); [|done..].
  apply (bool_decide_unpack _). by vm_compute.
Qed.

(** ** The key translation *)

#[global] Instance _device_key_to_bluetooth_entity_key_inj :
  Inj (=) (=) _device_key_to_bluetooth_entity_key.
Proof. intros [k1 i1] [k2 i2] [= -> ->]. done. Qed.

(** C4.  The translation copies the key and the device id, and it has an
    inverse on both sides: the device key is recovered from the entity key. *)
Theorem device_key_entity_key_round_trip :
  (∀ device_key,
     PassiveBluetoothEntityKey.key (_device_key_to_bluetooth_entity_key device_key) =
       DeviceKey.key device_key ∧
     PassiveBluetoothEntityKey.device_id (_device_key_to_bluetooth_entity_key device_key) =
       DeviceKey.device_id device_key) ∧
  ∃ back : PassiveBluetoothEntityKey.t → DeviceKey.t,
    (∀ device_key, back (_device_key_to_bluetooth_entity_key device_key) = device_key) ∧
    (∀ entity_key, _device_key_to_bluetooth_entity_key (back entity_key) = entity_key).
Proof.
  split; [done|].
  exists (λ entity_key,
    DeviceKey.mk (PassiveBluetoothEntityKey.key entity_key)
                 (PassiveBluetoothEntityKey.device_id entity_key)).
  split; by intros [].
Qed.

(** ** One iteration of the [entity_descriptions] comprehension *)

Lemma entity_descriptions_body_Some device_key description device_class :
  SensorDescription.device_class description = Some device_class →
  entity_descriptions_body device_key description =
    Ok ((_device_key_to_bluetooth_entity_key device_key,.) <$> description_for description).
Proof.
  intros Hc. unfold entity_descriptions_body, description_for, _to_sensor_key,
    dict_contains, dict_getitem.
  rewrite Hc; simpl.
  by destruct (SENSOR_DESCRIPTIONS !! _) as [d|] eqn:Hd.
Qed.

Lemma entity_descriptions_body_None device_key description :
  SensorDescription.device_class description = None →
  entity_descriptions_body device_key description = Raise AssertionError.
Proof.
  intros Hc. unfold entity_descriptions_body, _to_sensor_key. by rewrite Hc.
Qed.

Lemma _to_sensor_key_Ok description sensor_key :
  _to_sensor_key description = Ok sensor_key ↔
  SensorDescription.device_class description = Some sensor_key.1 ∧
  SensorDescription.native_unit_of_measurement description = sensor_key.2.
Proof.
  unfold _to_sensor_key. destruct sensor_key as [c u]. simpl.
  destruct (SensorDescription.device_class description) as [c'|].
  - split; [by intros [= -> ->]|by intros [[= ->] ->]].
  - split; [done|by intros [[=] _]].
Qed.

Lemma description_for_fields description entity_description :
  description_for description = Some entity_description ↔
  ∃ device_class,
    SensorDescription.device_class description = Some device_class ∧
    SENSOR_DESCRIPTIONS !!
      (device_class, SensorDescription.native_unit_of_measurement description) =
      Some entity_description.
Proof.
  unfold description_for.
  destruct (SensorDescription.device_class description) as [c|]; simpl.
  - split; [eauto|]. by intros (c' & [= <-] & Hc).
  - split; [done|]. by intros (c' & [=] & _).
Qed.

Lemma description_for_in_table description entity_description :
  description_for description = Some entity_description ↔
  ∃ sensor_key, _to_sensor_key description = Ok sensor_key ∧
    SENSOR_DESCRIPTIONS !! sensor_key = Some entity_description.
Proof.
  unfold description_for, _to_sensor_key.
  destruct (SensorDescription.device_class description) as [c|]; simpl.
  - split; [eauto|]. by intros (p & [= <-] & Hp).
  - split; [done|]. by intros (p & [=] & _).
Qed.

(** ** The module's objects *)






(** ** The converter *)

Section converter_facts.
Context {SensorDeviceInfo DeviceInfo : Type}.
Variable adapter : SensorDeviceInfo → DeviceInfo.
Implicit Types (sensor_update : SensorUpdate.t SensorDeviceInfo).

Lemma of_items_ok sensor_update ds es vs :
  enumerates ds (SensorUpdate.devices sensor_update) →
  enumerates es (SensorUpdate.entity_descriptions sensor_update) →
  enumerates vs (SensorUpdate.entity_values sensor_update) →
  device_classes_known sensor_update →
  bluetooth_data_update_of_items adapter ds es vs = Ok (converted adapter sensor_update).
Proof.
  intros Hds Hes Hvs Hknown. unfold bluetooth_data_update_of_items.
  rewrite (dict_comprehension_fmap _ id adapter ds _ _ Hds) by done.
  simpl. rewrite kmap_id.
  rewrite (dict_comprehension_kmap _ _ description_for es _ _ Hes).
  2:{ intros k d Hd. destruct (Hknown k d Hd) as [c Hc].
      by apply entity_descriptions_body_Some with c. }
  simpl.
  rewrite (dict_comprehension_fmap _ _ SensorValue.native_value vs _ _ Hvs) by done.
  simpl.
  by rewrite (dict_comprehension_fmap _ _ SensorValue.name vs _ _ Hvs) by done.
Qed.

Lemma of_items_raise sensor_update ds es vs device_key description :
  enumerates ds (SensorUpdate.devices sensor_update) →
  enumerates es (SensorUpdate.entity_descriptions sensor_update) →
  SensorUpdate.entity_descriptions sensor_update !! device_key = Some description →
  SensorDescription.device_class description = None →
  bluetooth_data_update_of_items adapter ds es vs = Raise AssertionError.
Proof.
  intros Hds [_ Hes] Hd Hc. unfold bluetooth_data_update_of_items.
  rewrite (dict_comprehension_fmap _ id adapter ds _ _ Hds) by done.
  simpl.
  rewrite (dict_comprehension_raise entity_descriptions_body es ∅ AssertionError); [done| |].
  - intros k d _. destruct (SensorDescription.device_class d) as [c|] eqn:Hk.
    + right. eexists. by apply entity_descriptions_body_Some with c.
    + left. by apply entity_descriptions_body_None.
  - exists device_key, description. split; [by apply Hes|].
    by apply entity_descriptions_body_None.
Qed.

Lemma device_classes_known_or_not sensor_update :
  device_classes_known sensor_update ∨
  ∃ device_key description,
    SensorUpdate.entity_descriptions sensor_update !! device_key = Some description ∧
    SensorDescription.device_class description = None.
Proof.
  destruct (decide (device_classes_known sensor_update)) as [Hall|Hex].
  - by left.
  - right. apply map_not_Forall in Hex as (k & d & Hd & Hn); [|apply _].
    exists k, d. split; [done|]. by apply eq_None_not_Some.
Qed.

Lemma converter_ok sensor_update :
  device_classes_known sensor_update →
  sensor_update_to_bluetooth_data_update adapter sensor_update =
    Ok (converted adapter sensor_update).
Proof.
  intros Hknown. unfold sensor_update_to_bluetooth_data_update.
  apply of_items_ok; auto using dict_items_enumerates.
Qed.

Lemma converter_raise sensor_update device_key description :
  SensorUpdate.entity_descriptions sensor_update !! device_key = Some description →
  SensorDescription.device_class description = None →
  sensor_update_to_bluetooth_data_update adapter sensor_update = Raise AssertionError.
Proof.
  intros Hd Hc. unfold sensor_update_to_bluetooth_data_update.
  eapply of_items_raise; eauto using dict_items_enumerates.
Qed.

Lemma converter_Ok_inv sensor_update out :
  sensor_update_to_bluetooth_data_update adapter sensor_update = Ok out →
  device_classes_known sensor_update ∧ out = converted adapter sensor_update.
Proof.
  intros Hout.
  destruct (device_classes_known_or_not sensor_update) as [Hknown|(k & d & Hd & Hc)].
  - split; [done|]. rewrite converter_ok in Hout by done. congruence.
  - rewrite (converter_raise _ k d) in Hout by done. discriminate.
Qed.

Lemma converter_Raise_inv sensor_update e :
  sensor_update_to_bluetooth_data_update adapter sensor_update = Raise e →
  e = AssertionError ∧
  ∃ device_key description,
    SensorUpdate.entity_descriptions sensor_update !! device_key = Some description ∧
    SensorDescription.device_class description = None.
Proof.
  intros Hraise.
  destruct (device_classes_known_or_not sensor_update) as [Hknown|(k & d & Hd & Hc)].
  - rewrite converter_ok in Hraise by done. discriminate.
  - rewrite (converter_raise _ k d) in Hraise by done. split; [congruence|eauto].
Qed.

Lemma entity_data_lookup sensor_update device_key :
  PassiveBluetoothDataUpdate.entity_data (converted adapter sensor_update)
    !! _device_key_to_bluetooth_entity_key device_key =
  SensorValue.native_value <$> SensorUpdate.entity_values sensor_update !! device_key.
Proof. simpl. by rewrite lookup_kmap, lookup_fmap by apply _. Qed.

Lemma entity_names_lookup sensor_update device_key :
  PassiveBluetoothDataUpdate.entity_names (converted adapter sensor_update)
    !! _device_key_to_bluetooth_entity_key device_key =
  SensorValue.name <$> SensorUpdate.entity_values sensor_update !! device_key.
Proof. simpl. by rewrite lookup_kmap, lookup_fmap by apply _. Qed.

Lemma entity_descriptions_lookup sensor_update device_key :
  PassiveBluetoothDataUpdate.entity_descriptions (converted adapter sensor_update)
    !! _device_key_to_bluetooth_entity_key device_key =
  SensorUpdate.entity_descriptions sensor_update !! device_key ≫= description_for.
Proof. simpl. by rewrite lookup_kmap, lookup_omap by apply _. Qed.

(** ** The claims about the converter *)

(** C3.  Whenever the converter produces an update, its [entity_data] holds
    the native value of every entry of the input's [entity_values], under the
    entry's translated key: the mapping is the input's, key by key, with no
    entry filtered out, whatever the input's descriptions are (in particular
    whether or not their kinds are keys of the table).  It produces one when
    every description of the input carries a device class. *)
Theorem entity_data_unfiltered sensor_update :
  (∀ out,
     sensor_update_to_bluetooth_data_update adapter sensor_update = Ok out →
     (∀ device_key sensor_values,
        SensorUpdate.entity_values sensor_update !! device_key = Some sensor_values →
        PassiveBluetoothDataUpdate.entity_data out
          !! _device_key_to_bluetooth_entity_key device_key =
        Some (SensorValue.native_value sensor_values)) ∧
     PassiveBluetoothDataUpdate.entity_data out =
       kmap _device_key_to_bluetooth_entity_key
         (SensorValue.native_value <$> SensorUpdate.entity_values sensor_update) ∧
     size (PassiveBluetoothDataUpdate.entity_data out) =
       size (SensorUpdate.entity_values sensor_update)) ∧
  (device_classes_known sensor_update →
   ∃ out, sensor_update_to_bluetooth_data_update adapter sensor_update = Ok out).
Proof.
  split.
  - intros out [_ ->]%converter_Ok_inv. split; [|split].
    + intros k sv Hsv. by rewrite entity_data_lookup, Hsv.
    + done.
    + simpl. by rewrite map_size_kmap, map_size_fmap by apply _.
  - intros Hknown. eexists. by apply converter_ok.
Qed.

(** C6.  If every description of the input carries a device class, then the
    assertion of [_to_sensor_key] holds at each of them and the converter
    returns an update; and the assertion is the only check there is: a call
    that raises raises [AssertionError], at an input with a description whose
    device class is [None]. *)
Theorem converter_completes sensor_update :
  (device_classes_known sensor_update →
     (∀ device_key description,
        SensorUpdate.entity_descriptions sensor_update !! device_key = Some description →
        ∃ sensor_key, _to_sensor_key description = Ok sensor_key) ∧
     ∃ out, sensor_update_to_bluetooth_data_update adapter sensor_update = Ok out) ∧
  (∀ e, sensor_update_to_bluetooth_data_update adapter sensor_update = Raise e →
     e = AssertionError ∧
     ∃ device_key description,
       SensorUpdate.entity_descriptions sensor_update !! device_key = Some description ∧
       SensorDescription.device_class description = None).
Proof.
  split.
  - intros Hknown. split.
    + intros k d Hd. destruct (Hknown k d Hd) as [c Hc].
      unfold _to_sensor_key. rewrite Hc. eauto.
    + eexists. by apply converter_ok.
  - apply converter_Raise_inv.
Qed.

(** C9.  Whenever the converter produces an update, [entity_data] and
    [entity_names] have the same keys, namely the translated keys of the
    input's [entity_values]; [entity_names] holds each entry's name and
    [entity_data] its native value.  It produces one when every description of
    the input carries a device class. *)
Theorem entity_data_names_keys sensor_update :
  (∀ out,
     sensor_update_to_bluetooth_data_update adapter sensor_update = Ok out →
     dom (PassiveBluetoothDataUpdate.entity_data out) =
       dom (PassiveBluetoothDataUpdate.entity_names out) ∧
     dom (PassiveBluetoothDataUpdate.entity_data out) =
       set_map _device_key_to_bluetooth_entity_key
         (dom (SensorUpdate.entity_values sensor_update)) ∧
     (∀ device_key sensor_values,
        SensorUpdate.entity_values sensor_update !! device_key = Some sensor_values →
        PassiveBluetoothDataUpdate.entity_names out
          !! _device_key_to_bluetooth_entity_key device_key =
          Some (SensorValue.name sensor_values) ∧
        PassiveBluetoothDataUpdate.entity_data out
          !! _device_key_to_bluetooth_entity_key device_key =
          Some (SensorValue.native_value sensor_values))) ∧
  (device_classes_known sensor_update →
   ∃ out, sensor_update_to_bluetooth_data_update adapter sensor_update = Ok out).
Proof.
  split.
  - intros out [_ ->]%converter_Ok_inv. split; [|split].
    + simpl. by rewrite !dom_kmap_L, !dom_fmap_L by apply _.
    + simpl. by rewrite dom_kmap_L, dom_fmap_L by apply _.
    + intros k sv Hsv. by rewrite entity_names_lookup, entity_data_lookup, Hsv.
  - intros Hknown. eexists. by apply converter_ok.
Qed.

(** C10.  There are inputs with a description whose device class is [None],
    and at every such input the converter raises [AssertionError] and returns
    no update: the iteration over that description raises in its [if] clause,
    where [_to_sensor_key] is called before the table is consulted. *)
Theorem converter_asserts_device_class :
  (∃ sensor_update device_key description,
     SensorUpdate.entity_descriptions sensor_update !! device_key = Some description ∧
     SensorDescription.device_class description = None ∧
     sensor_update_to_bluetooth_data_update adapter sensor_update = Raise AssertionError) ∧
  (∀ sensor_update device_key description,
     SensorUpdate.entity_descriptions sensor_update !! device_key = Some description →
     SensorDescription.device_class description = None →
     entity_descriptions_body device_key description = Raise AssertionError ∧
     sensor_update_to_bluetooth_data_update adapter sensor_update = Raise AssertionError ∧
     ∀ out, sensor_update_to_bluetooth_data_update adapter sensor_update ≠ Ok out).
Proof.
  split.
  - set (k := DeviceKey.mk "battery" None).
    set (d := SensorDescription.mk k None (Some Units.PERCENTAGE)).
    exists (SensorUpdate.mk ∅ {[ k := d ]} ∅), k, d.
    split; [apply lookup_singleton_eq|]. split; [done|].
    apply (converter_raise _ k d); [apply lookup_singleton_eq|done].
  - intros su k d Hd Hc. split; [by apply entity_descriptions_body_None|].
    rewrite (converter_raise su k d) by done. done.
Qed.

(** C1 (as amended).  Take any input and any of its descriptions that carries a
    device class and whose (device class, unit) pair is not a key of the
    table.  The converter behaves on the input exactly as on the input without
    that description: it raises in the one case if and only if it raises in
    the other, and otherwise returns the same update.  An update it returns
    has no entity description under the description's translated key, and it
    does return one when every description of the input carries a device
    class. *)
Theorem unsupported_kind_dropped sensor_update device_key description device_class :
  SensorUpdate.entity_descriptions sensor_update !! device_key = Some description →
  SensorDescription.device_class description = Some device_class →
  SENSOR_DESCRIPTIONS !!
    (device_class, SensorDescription.native_unit_of_measurement description) = None →
  sensor_update_to_bluetooth_data_update adapter sensor_update =
    sensor_update_to_bluetooth_data_update adapter
      (without_description device_key sensor_update) ∧
  (∀ out,
     sensor_update_to_bluetooth_data_update adapter sensor_update = Ok out →
     PassiveBluetoothDataUpdate.entity_descriptions out
       !! _device_key_to_bluetooth_entity_key device_key = None) ∧
  (device_classes_known sensor_update →
   ∃ out, sensor_update_to_bluetooth_data_update adapter sensor_update = Ok out).
Proof.
  intros Hd Hclass Hmiss.
  assert (description_for description = None) as Hnone.
  { unfold description_for. by rewrite Hclass. }
  split; [|split].
  - destruct (device_classes_known_or_not sensor_update) as [Hknown|(k & d & Hk & Hc)].
    + rewrite (converter_ok sensor_update) by done.
      rewrite converter_ok.
      * unfold converted; simpl. do 3 f_equal.
        rewrite omap_delete. symmetry. apply delete_id.
        by rewrite lookup_omap, Hd.
      * intros k d Hk. simpl in Hk. apply lookup_delete_Some in Hk as [_ Hk]. eauto.
    + assert (k ≠ device_key) as Hne by (intros ->; congruence).
      rewrite (converter_raise _ k d), (converter_raise _ k d); try done.
      simpl. by rewrite lookup_delete_ne.
  - intros out [_ ->]%converter_Ok_inv.
    by rewrite entity_descriptions_lookup, Hd.
  - intros Hknown. eexists. by apply converter_ok.
Qed.

(** C2 (as amended).  Take a pair that is a key of the table and an input,
    each of whose descriptions carries a device class, in which exactly one
    description has that pair as its device class and unit.  The converter
    returns an update whose [entity_descriptions] holds the table's entry for
    the pair exactly once, under the translated device key of that
    description; where the input has no other description at all, that item
    is the whole mapping.  The entry's device class is the description's, and
    its unit is the string of the description's unit (none for none).  Its key
    is [f"{device_class}_{unit}"], written from the pair, where the pair has a
    unit; the unit-less pair is that of the count class and its key is
    ["movement_counter"].  No other entry of the table has the same key. *)
Theorem supported_kind_one_description
    sensor_update device_key description sensor_key entity_description :
  SENSOR_DESCRIPTIONS !! sensor_key = Some entity_description →
  SensorUpdate.entity_descriptions sensor_update !! device_key = Some description →
  SensorDescription.device_class description = Some sensor_key.1 →
  SensorDescription.native_unit_of_measurement description = sensor_key.2 →
  (∀ device_key' description',
     SensorUpdate.entity_descriptions sensor_update !! device_key' = Some description' →
     SensorDescription.device_class description' = Some sensor_key.1 →
     SensorDescription.native_unit_of_measurement description' = sensor_key.2 →
     device_key' = device_key) →
  device_classes_known sensor_update →
  ∃ out,
    sensor_update_to_bluetooth_data_update adapter sensor_update = Ok out ∧
    PassiveBluetoothDataUpdate.entity_descriptions out
      !! _device_key_to_bluetooth_entity_key device_key = Some entity_description ∧
    (∀ entity_key,
       PassiveBluetoothDataUpdate.entity_descriptions out !! entity_key =
         Some entity_description →
       entity_key = _device_key_to_bluetooth_entity_key device_key) ∧
    (SensorUpdate.entity_descriptions sensor_update = {[ device_key := description ]} →
     PassiveBluetoothDataUpdate.entity_descriptions out =
       {[ _device_key_to_bluetooth_entity_key device_key := entity_description ]} ∧
     size (PassiveBluetoothDataUpdate.entity_descriptions out) = 1) ∧
    SensorEntityDescription.device_class entity_description =
      SensorDescription.device_class description ∧
    SensorEntityDescription.native_unit_of_measurement entity_description =
      Units.value <$> SensorDescription.native_unit_of_measurement description ∧
    match SensorDescription.native_unit_of_measurement description with
    | Some unit =>
        SensorEntityDescription.key entity_description =
          fstring_underscore (SensorDeviceClass.value sensor_key.1) (Units.value unit)
    | None =>
        SensorDescription.device_class description = Some SensorDeviceClass.COUNT ∧
        SensorEntityDescription.key entity_description = "movement_counter"
    end ∧
    (∀ sensor_key' entity_description',
       SENSOR_DESCRIPTIONS !! sensor_key' = Some entity_description' →
       SensorEntityDescription.key entity_description' =
         SensorEntityDescription.key entity_description →
       sensor_key' = sensor_key).
Proof.
  intros Hentry Hd Hclass Hunit Honly Hknown.
  assert (description_for description = Some entity_description) as Hfor.
  { apply description_for_fields. exists sensor_key.1. split; [done|].
    rewrite Hunit. by destruct sensor_key. }
  assert (entry_matches sensor_key entity_description) as (Hc & Hu & Hk).
  { apply SENSOR_DESCRIPTIONS_lookup in Hentry.
    pose proof SENSOR_DESCRIPTIONS_entries_match as Hall.
    rewrite Forall_forall in Hall. apply (Hall _ Hentry). }
  exists (converted adapter sensor_update).
  split; [by apply converter_ok|].
  split; [|split; [|split; [|split; [|split; [|split]]]]].
  - by rewrite entity_descriptions_lookup, Hd.
  - intros ek Hek. simpl in Hek.
    apply lookup_kmap_Some in Hek as (k' & -> & Hk'); [|apply _].
    apply lookup_omap_Some in Hk' as (d' & Hfor' & Hd').
    apply description_for_fields in Hfor' as (c' & Hclass' & Hentry').
    assert ((c', SensorDescription.native_unit_of_measurement d') = sensor_key)
      as Hsame by (by eapply SENSOR_DESCRIPTIONS_key_inj).
    f_equal. apply (Honly k' d' Hd'); rewrite <-Hsame; done.
  - intros Hdescs. simpl. rewrite Hdescs.
    by rewrite (omap_singleton_Some _ _ _ _ Hfor), kmap_singleton, map_size_singleton.
  - by rewrite Hclass.
  - by rewrite Hunit.
  - rewrite Hunit. destruct (sensor_key.2) as [unit|]; [done|].
    destruct Hk as [Hcount Hk]. by rewrite Hclass, Hcount.
  - intros k' d' Hk' Hsame. by eapply SENSOR_DESCRIPTIONS_key_inj.
Qed.

(** C7.  The converter is a function of its argument: invocations on equal
    updates give equal results, an update or an exception alike, whatever the
    order in which the dictionaries of each are enumerated; the only other
    thing the result is computed from is the constant table. *)
Theorem converter_deterministic sensor_update1 sensor_update2 ds1 es1 vs1 ds2 es2 vs2 :
  sensor_update1 = sensor_update2 →
  enumerates ds1 (SensorUpdate.devices sensor_update1) →
  enumerates es1 (SensorUpdate.entity_descriptions sensor_update1) →
  enumerates vs1 (SensorUpdate.entity_values sensor_update1) →
  enumerates ds2 (SensorUpdate.devices sensor_update2) →
  enumerates es2 (SensorUpdate.entity_descriptions sensor_update2) →
  enumerates vs2 (SensorUpdate.entity_values sensor_update2) →
  bluetooth_data_update_of_items adapter ds1 es1 vs1 =
    bluetooth_data_update_of_items adapter ds2 es2 vs2 ∧
  sensor_update_to_bluetooth_data_update adapter sensor_update1 =
    sensor_update_to_bluetooth_data_update adapter sensor_update2 ∧
  bluetooth_data_update_of_items adapter ds1 es1 vs1 =
    sensor_update_to_bluetooth_data_update adapter sensor_update1.
Proof.
  intros <- Hds1 Hes1 Hvs1 Hds2 Hes2 Hvs2.
  destruct (device_classes_known_or_not sensor_update1) as [Hknown|(k & d & Hk & Hc)].
  - rewrite converter_ok by done.
    by rewrite !(of_items_ok sensor_update1) by done.
  - rewrite (converter_raise _ k d) by done.
    by rewrite !(of_items_raise sensor_update1 _ _ _ k d) by done.
Qed.


End converter_facts.

(** ** The sensor entity *)

Lemma foldl_setitem_lookup_notin `{Countable K} {V} (l : list (K * V)) (d : gmap K V) k :
  k ∉ l.*1 → foldl dict_setitem d l !! k = d !! k.
Proof.
  revert d. induction l as [|[k1 v1] l IH]; intros d Hk; [done|].
  simpl in *. apply not_elem_of_cons in Hk as [Hne Hk].
  rewrite IH by done. unfold dict_setitem. by rewrite lookup_insert_ne.
Qed.

(** C5.  [native_value] returns [None] when the processor's [entity_data] has
    no item under the entity's key, and the item's value when it has one.  As
    values are recorded by stores into [entity_data], that value is the one
    most recently stored under the key; with no store under the key since the
    dictionary was empty, the answer is [None]. *)
Theorem native_value_most_recent :
  (∀ self,
     PassiveBluetoothDataProcessor.entity_data (RuuvitagBluetoothSensorEntity.processor self)
       !! RuuvitagBluetoothSensorEntity.entity_key self = None →
     RuuvitagBluetoothSensorEntity.native_value self = None) ∧
  (∀ self value,
     PassiveBluetoothDataProcessor.entity_data (RuuvitagBluetoothSensorEntity.processor self)
       !! RuuvitagBluetoothSensorEntity.entity_key self = Some value →
     RuuvitagBluetoothSensorEntity.native_value self = value) ∧
  (∀ entity_data earlier later entity_key value,
     entity_key ∉ later.*1 →
     RuuvitagBluetoothSensorEntity.native_value
       (RuuvitagBluetoothSensorEntity.mk
          (PassiveBluetoothDataProcessor.mk
             (foldl dict_setitem entity_data (earlier ++ (entity_key, value) :: later)))
          entity_key) = value) ∧
  (∀ stores entity_key,
     entity_key ∉ stores.*1 →
     RuuvitagBluetoothSensorEntity.native_value
       (RuuvitagBluetoothSensorEntity.mk
          (PassiveBluetoothDataProcessor.mk (foldl dict_setitem ∅ stores))
          entity_key) = None).
Proof.
  unfold RuuvitagBluetoothSensorEntity.native_value, dict_get. repeat split.
  - by intros self ->.
  - by intros self v ->.
  - intros d earlier later k v Hk. simpl. rewrite foldl_app. simpl.
    rewrite foldl_setitem_lookup_notin by done.
    unfold dict_setitem at 1; simpl. by rewrite lookup_insert_eq.
  - intros stores k Hk. simpl. by rewrite foldl_setitem_lookup_notin, lookup_empty.
Qed.

(** * Further properties of the module *)

Lemma map_size_omap_le `{Countable K} {A B} (g : A → option B) (d : gmap K A) :
  (size (omap g d) ≤ size d)%nat.
Proof.
  rewrite <-!(size_dom (D := gset K)). apply subseteq_size, dom_omap_subseteq.
Qed.

Lemma map_size_omap_eq `{Countable K} {A B} (g : A → option B) (d : gmap K A) :
  size (omap g d) = size d ↔ map_Forall (λ _ x, is_Some (g x)) d.
Proof.
  induction d as [|k x d Hk IH] using map_ind.
  - rewrite omap_empty, !map_size_empty. split; [intros _; apply map_Forall_empty|done].
  - rewrite map_Forall_insert by done. rewrite omap_insert.
    rewrite map_size_insert_None by done.
    destruct (g x) as [y|] eqn:Hg.
    + rewrite map_size_insert_None by (by rewrite lookup_omap, Hk).
      rewrite <-IH. split; [intros [= ?]; eauto|intros [_ ->]; done].
    + rewrite delete_id by (by rewrite lookup_omap, Hk).
      pose proof (map_size_omap_le g d). split; [lia|].
      by intros [[? [=]] _].
Qed.

Lemma SENSOR_DESCRIPTIONS_class_unit device_class unit1 unit2 description1 description2 :
  SENSOR_DESCRIPTIONS !! (device_class, unit1) = Some description1 →
  SENSOR_DESCRIPTIONS !! (device_class, unit2) = Some description2 →
  unit1 = unit2.
Proof.
  rewrite !SENSOR_DESCRIPTIONS_lookup. intros H1 H2.
  assert (((device_class, unit1), description1) = ((device_class, unit2), description2))
    as [= -> _]; [|done].
  apply (NoDup_fmap_elem_eq (λ item, item.1.1) SENSOR_DESCRIPTIONS_items); [|done..].
  apply (bool_decide_unpack _). by vm_compute.
Qed.

Section converter_more.
Context {SensorDeviceInfo DeviceInfo : Type}.
Variable adapter : SensorDeviceInfo → DeviceInfo.
Implicit Types (sensor_update : SensorUpdate.t SensorDeviceInfo).
Implicit Types (out : PassiveBluetoothDataUpdate.t DeviceInfo).

(** X1.  In every update the converter returns, [devices] has the device ids
    of the input's [devices], each with the adapter's image of its device
    info. *)
Theorem devices_adapted sensor_update out :
  sensor_update_to_bluetooth_data_update adapter sensor_update = Ok out →
  PassiveBluetoothDataUpdate.devices out = adapter <$> SensorUpdate.devices sensor_update ∧
  dom (PassiveBluetoothDataUpdate.devices out) = dom (SensorUpdate.devices sensor_update) ∧
  (∀ device_id,
     PassiveBluetoothDataUpdate.devices out !! device_id =
       adapter <$> SensorUpdate.devices sensor_update !! device_id).
Proof.
  intros [_ ->]%converter_Ok_inv. simpl. split; [done|]. split.
  - by rewrite dom_fmap_L.
  - intros id. by rewrite lookup_fmap.
Qed.

(** X2.  In every update the converter returns, an entity key holds an entity
    description exactly when it is the translation of a device key whose
    description in the input carries a device class that, with the
    description's unit, is a key of the table; and the description it holds
    is the table's entry for that pair. *)
Theorem entity_descriptions_exactly sensor_update out entity_key entity_description :
  sensor_update_to_bluetooth_data_update adapter sensor_update = Ok out →
  (PassiveBluetoothDataUpdate.entity_descriptions out !! entity_key =
     Some entity_description ↔
   ∃ device_key description device_class,
     entity_key = _device_key_to_bluetooth_entity_key device_key ∧
     SensorUpdate.entity_descriptions sensor_update !! device_key = Some description ∧
     SensorDescription.device_class description = Some device_class ∧
     SENSOR_DESCRIPTIONS !!
       (device_class, SensorDescription.native_unit_of_measurement description) =
       Some entity_description).
Proof.
  intros [_ ->]%converter_Ok_inv. simpl.
  rewrite lookup_kmap_Some by apply _. split.
  - intros (k & -> & Hk). apply lookup_omap_Some in Hk as (d & Hfor & Hd).
    apply description_for_fields in Hfor as (c & Hclass & Hentry).
    by exists k, d, c.
  - intros (k & d & c & -> & Hd & Hclass & Hentry). exists k. split; [done|].
    apply lookup_omap_Some. exists d. split; [|done].
    apply description_for_fields. by exists c.
Qed.

(** X3.  In every update the converter returns, the entity description under
    a translated device key has the device class of the input's description
    under that device key, and its unit is the string of that description's
    unit (none for none). *)
Theorem entity_description_keeps_kind sensor_update out device_key description
    entity_description :
  sensor_update_to_bluetooth_data_update adapter sensor_update = Ok out →
  SensorUpdate.entity_descriptions sensor_update !! device_key = Some description →
  PassiveBluetoothDataUpdate.entity_descriptions out
    !! _device_key_to_bluetooth_entity_key device_key = Some entity_description →
  SensorEntityDescription.device_class entity_description =
    SensorDescription.device_class description ∧
  SensorEntityDescription.native_unit_of_measurement entity_description =
    Units.value <$> SensorDescription.native_unit_of_measurement description.
Proof.
  intros [_ ->]%converter_Ok_inv Hd Hout.
  rewrite entity_descriptions_lookup, Hd in Hout. simpl in Hout.
  apply description_for_in_table in Hout as (p & Hkey & Hp).
  apply _to_sensor_key_Ok in Hkey as [-> ->].
  apply SENSOR_DESCRIPTIONS_lookup in Hp.
  pose proof SENSOR_DESCRIPTIONS_entries_match as Hall.
  rewrite Forall_forall in Hall. by destruct (Hall _ Hp) as (? & ? & _).
Qed.

(** X4.  An update the converter returns has at most as many entity
    descriptions as the input has descriptions, all of them under translated
    device keys of the input's descriptions; it has as many exactly when every
    description of the input carries a device class that, with the
    description's unit, is a key of the table. *)
Theorem entity_descriptions_size sensor_update out :
  sensor_update_to_bluetooth_data_update adapter sensor_update = Ok out →
  (size (PassiveBluetoothDataUpdate.entity_descriptions out) ≤
     size (SensorUpdate.entity_descriptions sensor_update))%nat ∧
  dom (PassiveBluetoothDataUpdate.entity_descriptions out) ⊆
    set_map _device_key_to_bluetooth_entity_key
      (dom (SensorUpdate.entity_descriptions sensor_update)) ∧
  (size (PassiveBluetoothDataUpdate.entity_descriptions out) =
     size (SensorUpdate.entity_descriptions sensor_update) ↔
   ∀ device_key description,
     SensorUpdate.entity_descriptions sensor_update !! device_key = Some description →
     ∃ device_class,
       SensorDescription.device_class description = Some device_class ∧
       is_Some (SENSOR_DESCRIPTIONS !!
                  (device_class,
                   SensorDescription.native_unit_of_measurement description))).
Proof.
  intros [_ ->]%converter_Ok_inv. simpl.
  rewrite map_size_kmap by apply _. split; [apply map_size_omap_le|]. split.
  - rewrite dom_kmap_L by apply _. apply set_map_mono; [done|].
    apply dom_omap_subseteq.
  - rewrite map_size_omap_eq. split.
    + intros Hall k d Hd. destruct (Hall k d Hd) as [sed Hfor].
      apply description_for_fields in Hfor as (c & Hclass & Hentry). eauto.
    + intros Hall k d Hd. destruct (Hall k d Hd) as (c & Hclass & [sed Hentry]).
      exists sed. apply description_for_fields. eauto.
Qed.

(** X5.  On an input without descriptions and without values the converter
    does not raise: it returns the update with the adapted devices and three
    empty mappings. *)
Theorem converter_on_no_readings sensor_update :
  SensorUpdate.entity_descriptions sensor_update = ∅ →
  SensorUpdate.entity_values sensor_update = ∅ →
  sensor_update_to_bluetooth_data_update adapter sensor_update =
    Ok (PassiveBluetoothDataUpdate.mk
          (adapter <$> SensorUpdate.devices sensor_update) ∅ ∅ ∅).
Proof.
  intros Hdescs Hvalues. rewrite converter_ok.
  - unfold converted. rewrite Hdescs, Hvalues.
    by rewrite omap_empty, !fmap_empty, !kmap_empty.
  - unfold device_classes_known. rewrite Hdescs. apply map_Forall_empty.
Qed.

(** X6.  Storing a description that carries a device class into an input the
    converter accepts changes the returned update at the description's
    translated key only: the key gets the table's entry for the description's
    pair, or loses its entity description when the pair is no key of the
    table. *)
Theorem description_stored sensor_update out device_key description device_class :
  sensor_update_to_bluetooth_data_update adapter sensor_update = Ok out →
  SensorDescription.device_class description = Some device_class →
  sensor_update_to_bluetooth_data_update adapter
    (with_description device_key description sensor_update) =
  Ok (PassiveBluetoothDataUpdate.mk
        (PassiveBluetoothDataUpdate.devices out)
        (match SENSOR_DESCRIPTIONS !!
                 (device_class, SensorDescription.native_unit_of_measurement description)
         with
         | Some entity_description =>
             <[_device_key_to_bluetooth_entity_key device_key := entity_description]>
               (PassiveBluetoothDataUpdate.entity_descriptions out)
         | None =>
             delete (_device_key_to_bluetooth_entity_key device_key)
               (PassiveBluetoothDataUpdate.entity_descriptions out)
         end)
        (PassiveBluetoothDataUpdate.entity_data out)
        (PassiveBluetoothDataUpdate.entity_names out)).
Proof.
  intros [Hknown ->]%converter_Ok_inv Hclass. rewrite converter_ok.
  - unfold converted, with_description, dict_setitem; simpl. do 2 f_equal.
    rewrite omap_insert.
    assert (description_for description =
              SENSOR_DESCRIPTIONS !!
                (device_class, SensorDescription.native_unit_of_measurement description))
      as -> by (unfold description_for; by rewrite Hclass).
    destruct (SENSOR_DESCRIPTIONS !! _).
    + by rewrite kmap_insert by apply _.
    + by rewrite kmap_delete by apply _.
  - unfold device_classes_known, with_description, dict_setitem; simpl.
    apply map_Forall_insert_2; [by rewrite Hclass|done].
Qed.

(** X7.  Storing a value into an input the converter accepts changes the
    returned update at the value's translated key only: [entity_data] gets the
    value's native value there and [entity_names] its name. *)
Theorem value_stored sensor_update out device_key sensor_values :
  sensor_update_to_bluetooth_data_update adapter sensor_update = Ok out →
  sensor_update_to_bluetooth_data_update adapter
    (with_value device_key sensor_values sensor_update) =
  Ok (PassiveBluetoothDataUpdate.mk
        (PassiveBluetoothDataUpdate.devices out)
        (PassiveBluetoothDataUpdate.entity_descriptions out)
        (<[_device_key_to_bluetooth_entity_key device_key :=
             SensorValue.native_value sensor_values]>
           (PassiveBluetoothDataUpdate.entity_data out))
        (<[_device_key_to_bluetooth_entity_key device_key :=
             SensorValue.name sensor_values]>
           (PassiveBluetoothDataUpdate.entity_names out))).
Proof.
  intros [Hknown ->]%converter_Ok_inv. rewrite converter_ok by done.
  unfold converted, with_value, dict_setitem; simpl.
  by rewrite !fmap_insert, !kmap_insert by apply _.
Qed.

(** X8.  Removing a description from an input the converter accepts removes
    the entity description under its translated key from the returned update
    and changes nothing else. *)
Theorem description_removed sensor_update out device_key :
  sensor_update_to_bluetooth_data_update adapter sensor_update = Ok out →
  sensor_update_to_bluetooth_data_update adapter
    (without_description device_key sensor_update) =
  Ok (PassiveBluetoothDataUpdate.mk
        (PassiveBluetoothDataUpdate.devices out)
        (delete (_device_key_to_bluetooth_entity_key device_key)
           (PassiveBluetoothDataUpdate.entity_descriptions out))
        (PassiveBluetoothDataUpdate.entity_data out)
        (PassiveBluetoothDataUpdate.entity_names out)).
Proof.
  intros [Hknown ->]%converter_Ok_inv. rewrite converter_ok.
  - unfold converted, without_description; simpl.
    by rewrite omap_delete, kmap_delete by apply _.
  - unfold device_classes_known, without_description; simpl.
    by apply map_Forall_delete.
Qed.

(** X9.  When one description of the input is the only one without a device
    class, the converter raises on the input and returns on the input without
    that description. *)
Theorem only_unclassified_removed sensor_update device_key description :
  SensorUpdate.entity_descriptions sensor_update !! device_key = Some description →
  SensorDescription.device_class description = None →
  (∀ device_key' description',
     SensorUpdate.entity_descriptions sensor_update !! device_key' = Some description' →
     SensorDescription.device_class description' = None →
     device_key' = device_key) →
  sensor_update_to_bluetooth_data_update adapter sensor_update = Raise AssertionError ∧
  ∃ out,
    sensor_update_to_bluetooth_data_update adapter
      (without_description device_key sensor_update) = Ok out.
Proof.
  intros Hd Hclass Honly. split; [by apply (converter_raise _ _ device_key description)|].
  eexists. apply converter_ok. intros k d Hk. simpl in Hk.
  apply lookup_delete_Some in Hk as [Hne Hk].
  destruct (SensorDescription.device_class d) eqn:Hc; [eauto|].
  destruct Hne. symmetry. by apply (Honly k d).
Qed.

(** X10.  Whether the converter raises, and which entity descriptions it
    returns, is settled by the input's [entity_descriptions] alone: inputs
    that agree on them raise alike and return the same entity descriptions,
    whatever their devices and values. *)
Theorem descriptions_alone_decide sensor_update1 sensor_update2 :
  SensorUpdate.entity_descriptions sensor_update1 =
    SensorUpdate.entity_descriptions sensor_update2 →
  (∀ e, sensor_update_to_bluetooth_data_update adapter sensor_update1 = Raise e ↔
        sensor_update_to_bluetooth_data_update adapter sensor_update2 = Raise e) ∧
  (∀ out1 out2,
     sensor_update_to_bluetooth_data_update adapter sensor_update1 = Ok out1 →
     sensor_update_to_bluetooth_data_update adapter sensor_update2 = Ok out2 →
     PassiveBluetoothDataUpdate.entity_descriptions out1 =
       PassiveBluetoothDataUpdate.entity_descriptions out2).
Proof.
  intros Hsame. split.
  - intros e. split; intros (-> & k & d & Hd & Hc)%converter_Raise_inv.
    + apply (converter_raise _ _ k d); [by rewrite <-Hsame|done].
    + apply (converter_raise _ _ k d); [by rewrite Hsame|done].
  - intros out1 out2 [_ ->]%converter_Ok_inv [_ ->]%converter_Ok_inv.
    simpl. by rewrite Hsame.
Qed.

(** X11.  The table supports each device class with one unit only, so a
    description of a supported class in any other unit gets no entity
    description in an update the converter returns. *)
Theorem other_unit_dropped sensor_update out device_key description device_class unit
    entity_description :
  sensor_update_to_bluetooth_data_update adapter sensor_update = Ok out →
  SensorUpdate.entity_descriptions sensor_update !! device_key = Some description →
  SensorDescription.device_class description = Some device_class →
  SENSOR_DESCRIPTIONS !! (device_class, unit) = Some entity_description →
  SensorDescription.native_unit_of_measurement description ≠ unit →
  PassiveBluetoothDataUpdate.entity_descriptions out
    !! _device_key_to_bluetooth_entity_key device_key = None.
Proof.
  intros [_ ->]%converter_Ok_inv Hd Hclass Hentry Hunit.
  rewrite entity_descriptions_lookup, Hd. simpl.
  unfold description_for. rewrite Hclass. simpl.
  destruct (SENSOR_DESCRIPTIONS !!
              (device_class, SensorDescription.native_unit_of_measurement description))
    as [sed|] eqn:Hother; [|done].
  destruct Hunit. apply (SENSOR_DESCRIPTIONS_class_unit _ _ _ _ _ Hother Hentry).
Qed.

(** X12.  Every entity description of every update the converter returns has
    the measurement state class, and is disabled by default exactly when its
    device class is signal strength or count. *)
Theorem entity_description_metadata sensor_update out entity_key entity_description :
  sensor_update_to_bluetooth_data_update adapter sensor_update = Ok out →
  PassiveBluetoothDataUpdate.entity_descriptions out !! entity_key =
    Some entity_description →
  SensorEntityDescription.state_class entity_description =
    Some SensorStateClass.MEASUREMENT ∧
  (SensorEntityDescription.entity_registry_enabled_default entity_description = false ↔
   SensorEntityDescription.device_class entity_description =
     Some SensorDeviceClass.SIGNAL_STRENGTH ∨
   SensorEntityDescription.device_class entity_description =
     Some SensorDeviceClass.COUNT).
Proof.
  intros [_ ->]%converter_Ok_inv Hout. simpl in Hout.
  apply lookup_kmap_Some in Hout as (k & _ & Hk); [|apply _].
  apply lookup_omap_Some in Hk as (d & Hfor & _).
  apply description_for_in_table in Hfor as (p & _ & Hp).
  apply SENSOR_DESCRIPTIONS_lookup in Hp.
  assert (Forall (λ item : (SensorDeviceClass.t * option Units.t) * SensorEntityDescription.t,
            SensorEntityDescription.state_class item.2 =
              Some SensorStateClass.MEASUREMENT ∧
            (SensorEntityDescription.entity_registry_enabled_default item.2 = false ↔
             SensorEntityDescription.device_class item.2 =
               Some SensorDeviceClass.SIGNAL_STRENGTH ∨
             SensorEntityDescription.device_class item.2 =
               Some SensorDeviceClass.COUNT))
            SENSOR_DESCRIPTIONS_items) as Hall.
  { apply (bool_decide_unpack _). by vm_compute. }
  rewrite Forall_forall in Hall. apply (Hall _ Hp).
Qed.

(** X13.  An entity whose key is a translated device key, reading a processor
    whose [entity_data] is that of an update the converter returned, gives the
    native value of the input's entry under that device key, and [None] when
    the input has none. *)
Theorem native_value_of_converted sensor_update out device_key :
  sensor_update_to_bluetooth_data_update adapter sensor_update = Ok out →
  RuuvitagBluetoothSensorEntity.native_value
    (RuuvitagBluetoothSensorEntity.mk
       (PassiveBluetoothDataProcessor.mk (PassiveBluetoothDataUpdate.entity_data out))
       (_device_key_to_bluetooth_entity_key device_key)) =
  SensorUpdate.entity_values sensor_update !! device_key ≫= SensorValue.native_value.
Proof.
  intros [_ ->]%converter_Ok_inv.
  unfold RuuvitagBluetoothSensorEntity.native_value, dict_get. simpl.
  rewrite lookup_kmap, lookup_fmap by apply _.
  by destruct (SensorUpdate.entity_values sensor_update !! device_key).
Qed.

End converter_more.

(** X14.  [native_value] is [None] in two cases only: the processor's
    [entity_data] has no item under the entity's key, or the item it has is
    [None]. *)
Theorem native_value_None self :
  RuuvitagBluetoothSensorEntity.native_value self = None ↔
  PassiveBluetoothDataProcessor.entity_data (RuuvitagBluetoothSensorEntity.processor self)
    !! RuuvitagBluetoothSensorEntity.entity_key self = None ∨
  PassiveBluetoothDataProcessor.entity_data (RuuvitagBluetoothSensorEntity.processor self)
    !! RuuvitagBluetoothSensorEntity.entity_key self = Some None.
Proof.
  unfold RuuvitagBluetoothSensorEntity.native_value, dict_get.
  destruct (_ !! _) as [[v|]|].
  - split; [done|by intros [|]].
  - split; [by right|done].
  - split; [by left|done].
Qed.

(** X15.  A store into the processor's [entity_data] under the translation of
    another device key leaves the value of the entity of a device key as it
    was. *)
Theorem native_value_other_key entity_data device_key device_key' value :
  device_key' ≠ device_key →
  RuuvitagBluetoothSensorEntity.native_value
    (RuuvitagBluetoothSensorEntity.mk
       (PassiveBluetoothDataProcessor.mk
          (dict_setitem entity_data
             (_device_key_to_bluetooth_entity_key device_key', value)))
       (_device_key_to_bluetooth_entity_key device_key)) =
  RuuvitagBluetoothSensorEntity.native_value
    (RuuvitagBluetoothSensorEntity.mk
       (PassiveBluetoothDataProcessor.mk entity_data)
       (_device_key_to_bluetooth_entity_key device_key)).
Proof.
  intros Hne. unfold RuuvitagBluetoothSensorEntity.native_value, dict_get, dict_setitem.
  simpl. rewrite lookup_insert_ne; [done|].
  intros Heq. by apply (inj _) in Heq.
Qed.

(** * The claims at the example data *)

(** The converter run on the example updates. *)
Example converter_at_mixed :
  sensor_update_to_bluetooth_data_update Example.adapter Example.mixed =
    Ok (PassiveBluetoothDataUpdate.mk
          {[ None := [("name", "RuuviTag 0911")] ]}
          {[ PassiveBluetoothEntityKey.mk "temperature" None :=
               SensorEntityDescription.mk "temperature_°C"
                 (Some SensorDeviceClass.TEMPERATURE) (Some "°C")
                 (Some SensorStateClass.MEASUREMENT) true ]}
          {[ PassiveBluetoothEntityKey.mk "temperature" None := Some (Int 21);
             PassiveBluetoothEntityKey.mk "battery" None := Some (Int 87) ]}
          {[ PassiveBluetoothEntityKey.mk "temperature" None := Some "Temperature";
             PassiveBluetoothEntityKey.mk "battery" None := Some "Battery" ]}).
Proof. vm_compute. reflexivity. Qed.

Example converter_at_malformed :
  sensor_update_to_bluetooth_data_update Example.adapter Example.malformed =
    Raise AssertionError.
Proof. vm_compute. reflexivity. Qed.

Lemma unsupported_kind_dropped_witness :
  (SensorUpdate.entity_descriptions Example.mixed !! Example.battery_key =
     Some Example.battery ∧
   SensorDescription.device_class Example.battery =
     Some (SensorDeviceClass.other "battery") ∧
   SENSOR_DESCRIPTIONS !! (SensorDeviceClass.other "battery", Some Units.PERCENTAGE) = None) ∧
  sensor_update_to_bluetooth_data_update Example.adapter Example.mixed =
    sensor_update_to_bluetooth_data_update Example.adapter
      (without_description Example.battery_key Example.mixed) ∧
  (∀ out,
     sensor_update_to_bluetooth_data_update Example.adapter Example.mixed = Ok out →
     PassiveBluetoothDataUpdate.entity_descriptions out
       !! _device_key_to_bluetooth_entity_key Example.battery_key = None) ∧
  (device_classes_known Example.mixed →
   ∃ out, sensor_update_to_bluetooth_data_update Example.adapter Example.mixed = Ok out).
Proof.
  split; [repeat split; vm_compute; reflexivity|].
  apply (unsupported_kind_dropped Example.adapter Example.mixed Example.battery_key
           Example.battery (SensorDeviceClass.other "battery"));
    vm_compute; reflexivity.
Defined.

(** C1, as stated, fails at [Example.malformed]: the description under
    [Example.battery_key] carries no device class, so its (device class,
    unit) pair is none of the table's keys; yet the converter does not drop
    it and go on: it raises [AssertionError] and returns no update. *)
Lemma unsupported_kind_dropped_counterexample :
  SensorUpdate.entity_descriptions Example.malformed !! Example.battery_key =
    Some Example.unclassified ∧
  (∀ sensor_key : SensorDeviceClass.t * option Units.t,
     is_Some (SENSOR_DESCRIPTIONS !! sensor_key) →
     (Some sensor_key.1, sensor_key.2) ≠
       (SensorDescription.device_class Example.unclassified,
        SensorDescription.native_unit_of_measurement Example.unclassified)) ∧
  sensor_update_to_bluetooth_data_update Example.adapter Example.malformed =
    Raise AssertionError ∧
  (∀ out,
     sensor_update_to_bluetooth_data_update Example.adapter Example.malformed ≠ Ok out).
Proof.
  assert (sensor_update_to_bluetooth_data_update Example.adapter Example.malformed =
            Raise AssertionError) as Hraise by (vm_compute; reflexivity).
  split; [vm_compute; reflexivity|]. split; [|split; [exact Hraise|]].
  - intros sensor_key _. simpl. discriminate.
  - intros out Hout. rewrite Hraise in Hout. discriminate.
Qed.

Lemma supported_kind_one_description_witness :
  ∃ out,
    sensor_update_to_bluetooth_data_update Example.adapter Example.supported = Ok out ∧
    PassiveBluetoothDataUpdate.entity_descriptions out =
      {[ _device_key_to_bluetooth_entity_key Example.temperature_key :=
           SensorEntityDescription.mk "temperature_°C"
             (Some SensorDeviceClass.TEMPERATURE) (Some "°C")
             (Some SensorStateClass.MEASUREMENT) true ]}.
Proof.
  destruct (supported_kind_one_description Example.adapter Example.supported
              Example.temperature_key Example.temperature
              (SensorDeviceClass.TEMPERATURE, Some Units.TEMP_CELSIUS)
              (SensorEntityDescription.mk "temperature_°C"
                 (Some SensorDeviceClass.TEMPERATURE) (Some "°C")
                 (Some SensorStateClass.MEASUREMENT) true))
    as (out & Hout & _ & _ & Hdescs & _).
  - vm_compute; reflexivity.
  - vm_compute; reflexivity.
  - reflexivity.
  - reflexivity.
  - intros k d Hk _ _. change (SensorUpdate.entity_descriptions Example.supported)
      with ({[ Example.temperature_key := Example.temperature ]}
              : gmap DeviceKey.t SensorDescription.t) in Hk.
    apply lookup_singleton_Some in Hk as [<- _]. reflexivity.
  - apply (bool_decide_unpack _). vm_compute. exact I.
  - exists out. split; [exact Hout|]. apply Hdescs. reflexivity.
Defined.

(** C2, as stated, fails at [Example.counted]: its one description has the
    pair of the count class with no unit, a key of the table, and the
    converter returns exactly one entity description for it, with the
    description's device class and unit; but that entity description's key is
    the literal ["movement_counter"], which is not written from the pair: it
    is not the class's string followed by an underscore and anything, which is
    how the keys of the five other entries match their pairs. *)
Lemma supported_kind_one_description_counterexample :
  is_Some (SENSOR_DESCRIPTIONS !! (SensorDeviceClass.COUNT, None)) ∧
  SensorUpdate.entity_descriptions Example.counted =
    {[ Example.movement_key := Example.movement ]} ∧
  SensorDescription.device_class Example.movement = Some SensorDeviceClass.COUNT ∧
  SensorDescription.native_unit_of_measurement Example.movement = None ∧
  ∃ out entity_description,
    sensor_update_to_bluetooth_data_update Example.adapter Example.counted = Ok out ∧
    PassiveBluetoothDataUpdate.entity_descriptions out =
      {[ _device_key_to_bluetooth_entity_key Example.movement_key := entity_description ]} ∧
    SensorEntityDescription.key entity_description = "movement_counter" ∧
    (∀ unit_string,
       SensorEntityDescription.key entity_description ≠
         fstring_underscore (SensorDeviceClass.value SensorDeviceClass.COUNT) unit_string) ∧
    Forall (λ item : (SensorDeviceClass.t * option Units.t) * SensorEntityDescription.t,
              item.1 ≠ (SensorDeviceClass.COUNT, None) →
              ∃ unit_string,
                SensorEntityDescription.key item.2 =
                  fstring_underscore (SensorDeviceClass.value item.1.1) unit_string)
           SENSOR_DESCRIPTIONS_items.
Proof.
  split.
  { exists (SensorEntityDescription.mk "movement_counter" (Some SensorDeviceClass.COUNT)
              None (Some SensorStateClass.MEASUREMENT) false).
    vm_compute; reflexivity. }
  split; [reflexivity|]. split; [reflexivity|]. split; [reflexivity|].
  exists (converted Example.adapter Example.counted),
    (SensorEntityDescription.mk "movement_counter" (Some SensorDeviceClass.COUNT) None
       (Some SensorStateClass.MEASUREMENT) false).
  split; [vm_compute; reflexivity|]. split; [vm_compute; reflexivity|].
  split; [reflexivity|]. split.
  - intros unit_string. simpl. discriminate.
  - unfold SENSOR_DESCRIPTIONS_items.
    repeat (constructor;
              [first [intros _; eexists; simpl; reflexivity
                     |intros Hne; exfalso; apply Hne; reflexivity]|]).
    constructor.
Qed.

Lemma entity_data_unfiltered_witness :
  sensor_update_to_bluetooth_data_update Example.adapter Example.mixed =
    Ok (converted Example.adapter Example.mixed) ∧
  PassiveBluetoothDataUpdate.entity_data (converted Example.adapter Example.mixed)
    !! _device_key_to_bluetooth_entity_key Example.battery_key = Some (Some (Int 87)).
Proof.
  assert (sensor_update_to_bluetooth_data_update Example.adapter Example.mixed =
            Ok (converted Example.adapter Example.mixed)) as Hout
    by (vm_compute; reflexivity).
  split; [exact Hout|].
  apply (proj1 (proj1 (entity_data_unfiltered Example.adapter Example.mixed) _ Hout)
           Example.battery_key Example.battery_value).
  vm_compute; reflexivity.
Defined.

Lemma converter_completes_witness :
  device_classes_known Example.mixed ∧
  ∃ out, sensor_update_to_bluetooth_data_update Example.adapter Example.mixed = Ok out.
Proof.
  assert (device_classes_known Example.mixed) as Hknown
    by (apply (bool_decide_unpack _); vm_compute; exact I).
  split; [exact Hknown|].
  apply (proj1 (converter_completes Example.adapter Example.mixed) Hknown).
Defined.

Lemma converter_deterministic_witness :
  bluetooth_data_update_of_items Example.adapter
    (dict_items (SensorUpdate.devices Example.mixed))
    (dict_items (SensorUpdate.entity_descriptions Example.mixed))
    (dict_items (SensorUpdate.entity_values Example.mixed)) =
  bluetooth_data_update_of_items Example.adapter
    (reverse (dict_items (SensorUpdate.devices Example.mixed)))
    (reverse (dict_items (SensorUpdate.entity_descriptions Example.mixed)))
    (reverse (dict_items (SensorUpdate.entity_values Example.mixed))).
Proof.
  exact (proj1 (converter_deterministic Example.adapter Example.mixed Example.mixed
                  _ _ _ _ _ _ eq_refl
                  (dict_items_enumerates _) (dict_items_enumerates _)
                  (dict_items_enumerates _)
                  (enumerates_reverse _ _ (dict_items_enumerates _))
                  (enumerates_reverse _ _ (dict_items_enumerates _))
                  (enumerates_reverse _ _ (dict_items_enumerates _)))).
Defined.



Lemma entity_data_names_keys_witness :
  sensor_update_to_bluetooth_data_update Example.adapter Example.mixed =
    Ok (converted Example.adapter Example.mixed) ∧
  dom (PassiveBluetoothDataUpdate.entity_data (converted Example.adapter Example.mixed)) =
    dom (PassiveBluetoothDataUpdate.entity_names (converted Example.adapter Example.mixed)).
Proof.
  assert (sensor_update_to_bluetooth_data_update Example.adapter Example.mixed =
            Ok (converted Example.adapter Example.mixed)) as Hout
    by (vm_compute; reflexivity).
  split; [exact Hout|].
  apply (proj1 (proj1 (entity_data_names_keys Example.adapter Example.mixed) _ Hout)).
Defined.

Lemma converter_asserts_device_class_witness :
  (SensorUpdate.entity_descriptions Example.malformed !! Example.battery_key =
     Some Example.unclassified ∧
   SensorDescription.device_class Example.unclassified = None) ∧
  sensor_update_to_bluetooth_data_update Example.adapter Example.malformed =
    Raise AssertionError.
Proof.
  split; [split; vm_compute; reflexivity|].
  apply (proj2 (converter_asserts_device_class Example.adapter)
           Example.malformed Example.battery_key Example.unclassified);
    vm_compute; reflexivity.
Defined.

Lemma native_value_most_recent_witness :
  RuuvitagBluetoothSensorEntity.native_value
    (RuuvitagBluetoothSensorEntity.mk
       (PassiveBluetoothDataProcessor.mk
          (foldl dict_setitem ∅
             ([(_device_key_to_bluetooth_entity_key Example.temperature_key, Some (Int 20))] ++
              (_device_key_to_bluetooth_entity_key Example.temperature_key, Some (Int 21)) ::
              [(_device_key_to_bluetooth_entity_key Example.battery_key, Some (Int 87))])))
       (_device_key_to_bluetooth_entity_key Example.temperature_key)) = Some (Int 21).
Proof.
  apply (proj1 (proj2 (proj2 native_value_most_recent))).
  apply (bool_decide_unpack _). vm_compute. exact I.
Defined.

(** * The further properties at the example data *)

Lemma devices_adapted_witness :
  PassiveBluetoothDataUpdate.devices (converted Example.adapter Example.mixed) !! None =
    Some [("name", "RuuviTag 0911")].
Proof.
  assert (sensor_update_to_bluetooth_data_update Example.adapter Example.mixed =
            Ok (converted Example.adapter Example.mixed)) as Hout
    by (vm_compute; reflexivity).
  rewrite (proj2 (proj2 (devices_adapted Example.adapter Example.mixed _ Hout)) None).
  vm_compute; reflexivity.
Defined.

Lemma entity_descriptions_exactly_witness :
  PassiveBluetoothDataUpdate.entity_descriptions (converted Example.adapter Example.mixed)
    !! _device_key_to_bluetooth_entity_key Example.temperature_key =
  Some (SensorEntityDescription.mk "temperature_°C"
          (Some SensorDeviceClass.TEMPERATURE) (Some "°C")
          (Some SensorStateClass.MEASUREMENT) true).
Proof.
  assert (sensor_update_to_bluetooth_data_update Example.adapter Example.mixed =
            Ok (converted Example.adapter Example.mixed)) as Hout
    by (vm_compute; reflexivity).
  apply (entity_descriptions_exactly Example.adapter Example.mixed _ _ _ Hout).
  exists Example.temperature_key, Example.temperature, SensorDeviceClass.TEMPERATURE.
  repeat split; vm_compute; reflexivity.
Defined.

Lemma entity_description_keeps_kind_witness :
  SensorEntityDescription.device_class
    (SensorEntityDescription.mk "temperature_°C"
       (Some SensorDeviceClass.TEMPERATURE) (Some "°C")
       (Some SensorStateClass.MEASUREMENT) true) =
    SensorDescription.device_class Example.temperature ∧
  SensorEntityDescription.native_unit_of_measurement
    (SensorEntityDescription.mk "temperature_°C"
       (Some SensorDeviceClass.TEMPERATURE) (Some "°C")
       (Some SensorStateClass.MEASUREMENT) true) =
    Units.value <$> SensorDescription.native_unit_of_measurement Example.temperature.
Proof.
  apply (entity_description_keeps_kind Example.adapter Example.mixed
           (converted Example.adapter Example.mixed) Example.temperature_key);
    vm_compute; reflexivity.
Defined.

Lemma entity_descriptions_size_witness :
  (size (PassiveBluetoothDataUpdate.entity_descriptions
           (converted Example.adapter Example.mixed)) ≤
   size (SensorUpdate.entity_descriptions Example.mixed))%nat.
Proof.
  assert (sensor_update_to_bluetooth_data_update Example.adapter Example.mixed =
            Ok (converted Example.adapter Example.mixed)) as Hout
    by (vm_compute; reflexivity).
  apply (proj1 (entity_descriptions_size Example.adapter Example.mixed _ Hout)).
Defined.

Lemma converter_on_no_readings_witness :
  sensor_update_to_bluetooth_data_update Example.adapter
    (SensorUpdate.mk {[ None := "RuuviTag 0911" ]} ∅ ∅) =
  Ok (PassiveBluetoothDataUpdate.mk {[ None := [("name", "RuuviTag 0911")] ]} ∅ ∅ ∅).
Proof.
  rewrite (converter_on_no_readings Example.adapter
             (SensorUpdate.mk {[ None := "RuuviTag 0911" ]} ∅ ∅) eq_refl eq_refl).
  vm_compute; reflexivity.
Defined.

Lemma description_stored_witness :
  sensor_update_to_bluetooth_data_update Example.adapter
    (with_description Example.battery_key Example.battery Example.supported) =
  Ok (PassiveBluetoothDataUpdate.mk
        (PassiveBluetoothDataUpdate.devices (converted Example.adapter Example.supported))
        (delete (_device_key_to_bluetooth_entity_key Example.battery_key)
           (PassiveBluetoothDataUpdate.entity_descriptions
              (converted Example.adapter Example.supported)))
        (PassiveBluetoothDataUpdate.entity_data (converted Example.adapter Example.supported))
        (PassiveBluetoothDataUpdate.entity_names
           (converted Example.adapter Example.supported))).
Proof.
  assert (sensor_update_to_bluetooth_data_update Example.adapter Example.supported =
            Ok (converted Example.adapter Example.supported)) as Hout
    by (vm_compute; reflexivity).
  rewrite (description_stored Example.adapter Example.supported _ Example.battery_key
             Example.battery (SensorDeviceClass.other "battery") Hout eq_refl).
  vm_compute; reflexivity.
Defined.

Lemma value_stored_witness :
  sensor_update_to_bluetooth_data_update Example.adapter
    (with_value Example.battery_key Example.battery_value Example.supported) =
  Ok (PassiveBluetoothDataUpdate.mk
        (PassiveBluetoothDataUpdate.devices (converted Example.adapter Example.supported))
        (PassiveBluetoothDataUpdate.entity_descriptions
           (converted Example.adapter Example.supported))
        (<[_device_key_to_bluetooth_entity_key Example.battery_key := Some (Int 87)]>
           (PassiveBluetoothDataUpdate.entity_data
              (converted Example.adapter Example.supported)))
        (<[_device_key_to_bluetooth_entity_key Example.battery_key := Some "Battery"]>
           (PassiveBluetoothDataUpdate.entity_names
              (converted Example.adapter Example.supported)))).
Proof.
  assert (sensor_update_to_bluetooth_data_update Example.adapter Example.supported =
            Ok (converted Example.adapter Example.supported)) as Hout
    by (vm_compute; reflexivity).
  exact (value_stored Example.adapter Example.supported _ Example.battery_key
           Example.battery_value Hout).
Defined.

Lemma description_removed_witness :
  sensor_update_to_bluetooth_data_update Example.adapter
    (without_description Example.temperature_key Example.mixed) =
  Ok (PassiveBluetoothDataUpdate.mk
        (PassiveBluetoothDataUpdate.devices (converted Example.adapter Example.mixed))
        (delete (_device_key_to_bluetooth_entity_key Example.temperature_key)
           (PassiveBluetoothDataUpdate.entity_descriptions
              (converted Example.adapter Example.mixed)))
        (PassiveBluetoothDataUpdate.entity_data (converted Example.adapter Example.mixed))
        (PassiveBluetoothDataUpdate.entity_names (converted Example.adapter Example.mixed))).
Proof.
  assert (sensor_update_to_bluetooth_data_update Example.adapter Example.mixed =
            Ok (converted Example.adapter Example.mixed)) as Hout
    by (vm_compute; reflexivity).
  exact (description_removed Example.adapter Example.mixed _ Example.temperature_key Hout).
Defined.

Lemma only_unclassified_removed_witness :
  sensor_update_to_bluetooth_data_update Example.adapter Example.malformed =
    Raise AssertionError ∧
  ∃ out,
    sensor_update_to_bluetooth_data_update Example.adapter
      (without_description Example.battery_key Example.malformed) = Ok out.
Proof.
  apply (only_unclassified_removed Example.adapter Example.malformed Example.battery_key
           Example.unclassified).
  - vm_compute; reflexivity.
  - reflexivity.
  - intros k d Hk Hc.
    change (SensorUpdate.entity_descriptions Example.malformed)
      with (<[ Example.temperature_key := Example.temperature ]>
              ({[ Example.battery_key := Example.unclassified ]}
                 : gmap DeviceKey.t SensorDescription.t)) in Hk.
    apply lookup_insert_Some in Hk as [[_ <-]|[_ Hk]]; [discriminate Hc|].
    by apply lookup_singleton_Some in Hk as [<- _].
Defined.

Lemma descriptions_alone_decide_witness :
  sensor_update_to_bluetooth_data_update Example.adapter Example.malformed =
    Raise AssertionError ↔
  sensor_update_to_bluetooth_data_update Example.adapter
    (SensorUpdate.mk ∅ (SensorUpdate.entity_descriptions Example.malformed) ∅) =
    Raise AssertionError.
Proof.
  apply (proj1 (descriptions_alone_decide Example.adapter Example.malformed
                  (SensorUpdate.mk ∅ (SensorUpdate.entity_descriptions Example.malformed) ∅)
                  eq_refl)).
Defined.

Lemma other_unit_dropped_witness :
  PassiveBluetoothDataUpdate.entity_descriptions
    (converted Example.adapter
       (with_description Example.temperature_key
          (SensorDescription.mk Example.temperature_key
             (Some SensorDeviceClass.TEMPERATURE) (Some (Units.other "°F")))
          Example.supported))
    !! _device_key_to_bluetooth_entity_key Example.temperature_key = None.
Proof.
  apply (other_unit_dropped Example.adapter
           (with_description Example.temperature_key
              (SensorDescription.mk Example.temperature_key
                 (Some SensorDeviceClass.TEMPERATURE) (Some (Units.other "°F")))
              Example.supported)
           _ Example.temperature_key
           (SensorDescription.mk Example.temperature_key
              (Some SensorDeviceClass.TEMPERATURE) (Some (Units.other "°F")))
           SensorDeviceClass.TEMPERATURE (Some Units.TEMP_CELSIUS)
           (SensorEntityDescription.mk "temperature_°C"
              (Some SensorDeviceClass.TEMPERATURE) (Some "°C")
              (Some SensorStateClass.MEASUREMENT) true)).
  - vm_compute; reflexivity.
  - vm_compute; reflexivity.
  - reflexivity.
  - vm_compute; reflexivity.
  - simpl. discriminate.
Defined.

Lemma entity_description_metadata_witness :
  SensorEntityDescription.state_class
    (SensorEntityDescription.mk "temperature_°C"
       (Some SensorDeviceClass.TEMPERATURE) (Some "°C")
       (Some SensorStateClass.MEASUREMENT) true) =
  Some SensorStateClass.MEASUREMENT.
Proof.
  apply (proj1 (entity_description_metadata Example.adapter Example.mixed
                  (converted Example.adapter Example.mixed)
                  (_device_key_to_bluetooth_entity_key Example.temperature_key)
                  (SensorEntityDescription.mk "temperature_°C"
                     (Some SensorDeviceClass.TEMPERATURE) (Some "°C")
                     (Some SensorStateClass.MEASUREMENT) true)
                  ltac:(vm_compute; reflexivity) ltac:(vm_compute; reflexivity))).
Defined.

Lemma native_value_of_converted_witness :
  RuuvitagBluetoothSensorEntity.native_value
    (RuuvitagBluetoothSensorEntity.mk
       (PassiveBluetoothDataProcessor.mk
          (PassiveBluetoothDataUpdate.entity_data (converted Example.adapter Example.mixed)))
       (_device_key_to_bluetooth_entity_key Example.battery_key)) = Some (Int 87).
Proof.
  assert (sensor_update_to_bluetooth_data_update Example.adapter Example.mixed =
            Ok (converted Example.adapter Example.mixed)) as Hout
    by (vm_compute; reflexivity).
  rewrite (native_value_of_converted Example.adapter Example.mixed _ Example.battery_key Hout).
  vm_compute; reflexivity.
Defined.

Lemma native_value_None_witness :
  RuuvitagBluetoothSensorEntity.native_value
    (RuuvitagBluetoothSensorEntity.mk
       (PassiveBluetoothDataProcessor.mk
          {[ _device_key_to_bluetooth_entity_key Example.battery_key := None ]})
       (_device_key_to_bluetooth_entity_key Example.battery_key)) = None.
Proof.
  apply native_value_None. right. vm_compute; reflexivity.
Defined.

Lemma native_value_other_key_witness :
  RuuvitagBluetoothSensorEntity.native_value
    (RuuvitagBluetoothSensorEntity.mk
       (PassiveBluetoothDataProcessor.mk
          (dict_setitem
             {[ _device_key_to_bluetooth_entity_key Example.temperature_key :=
                  Some (Int 21) ]}
             (_device_key_to_bluetooth_entity_key Example.battery_key, Some (Int 87))))
       (_device_key_to_bluetooth_entity_key Example.temperature_key)) =
  RuuvitagBluetoothSensorEntity.native_value
    (RuuvitagBluetoothSensorEntity.mk
       (PassiveBluetoothDataProcessor.mk
          {[ _device_key_to_bluetooth_entity_key Example.temperature_key :=
               Some (Int 21) ]})
       (_device_key_to_bluetooth_entity_key Example.temperature_key)).
Proof.
  apply (native_value_other_key _ Example.temperature_key Example.battery_key).
  discriminate.
Defined.
